(** * lava-peripherals: the Inivation DVS camera process

    A shallow embedding of [src/lava/lib/peripherals/dvs/inivation.py]:
    the [InivationCamera] process (construction, shape inference, dry run)
    and its process model [PyInivationCameraModel] (the per-tick
    acquisition loop [run_spk] and [_pause]).

    Python objects become records, numpy [int] fields become [Z] (the one
    arithmetic operation on them, the subtraction of two timestamps, has
    its 64-bit wrap-around written out), exceptions become the left
    injection of a sum, and the calls that reach a collaborator (the
    camera, the transformation pipeline, the histogram binner, the output
    port) are recorded in a trace. *)

From Stdlib Require Import ZArith List String QArith Qround Bool Lia Sorted.
Import ListNotations.
Open Scope Z_scope.

(** ** Events, shapes and tensors *)

(** One row of the structured array
    [np.dtype([("y", int), ("x", int), ("p", int), ("t", int)])]. *)
Record Event : Type := mkEvent {
  ev_y : Z;
  ev_x : Z;
  ev_p : Z;
  ev_t : Z
}.

Definition EventBatch : Type := list Event.

(** One record of what [events.numpy()] returns for a camera batch. *)
Record RawEvent : Type := mkRawEvent {
  raw_timestamp : Z;
  raw_x : Z;
  raw_y : Z;
  raw_polarity : Z
}.

(** [EventVolume(height=..., width=..., polarities=...)], as the source
    builds and reads it. *)
Module EventVolume.
Record t : Type := mk {
  height : Z;
  width : Z;
  polarities : Z
}.
End EventVolume.

(** A Python tuple of integers used as a tensor shape. *)
Definition Shape : Type := list Z.

Inductive DType : Type := UInt8 | Int32 | Int64 | Float64.

(** A numpy array: element type, shape, and the cells in row-major
    order. *)
Record Tensor : Type := mkTensor {
  dtype : DType;
  tshape : Shape;
  cells : list Z
}.

(** ** Exceptions *)

Inductive ExnClass : Type :=
| ValueError
| NotImplementedError
| IndexError
| AssertionError
| Exception.

Record Exn : Type := Raise { exn_class : ExnClass; exn_msg : string }.

(** ** Collaborators *)

(** What a call of a transformation hands back: the very array it was
    given, or another array. *)
Inductive Returned : Type :=
| RetArg
| RetFresh (b : EventBatch).

(** A transformation is called on an array.  It may raise; otherwise the
    call leaves the argument array in some state (the first component:
    equal to the argument when nothing is written in place) and returns
    an array (the second component). *)
Record Transformation : Type := mkTransformation {
  apply : EventBatch -> Exn + (EventBatch * Returned);
  infer_output_shape : EventVolume.t -> EventVolume.t
}.

(** Modelled from the spec: the class [Compose] of
    [lava/lib/peripherals/dvs/transform.py], which is not part of the
    sources at hand.  It is an ordered sequence of transformations;
    [determine_output_shape] is the left fold of the transforms' shape
    functions and a call is the left fold of the transforms' [apply]
    ([for t in transforms: events = t(events)]). *)
Definition Compose : Type := list Transformation.

Definition determine_output_shape (T : Compose) (input_shape : EventVolume.t)
  : EventVolume.t :=
  fold_left (fun s t => infer_output_shape t s) T input_shape.

(** The fold of [apply] over one array object.  [arg] is the state of the
    caller's array; [cur] is [None] while the value flowing through the
    pipeline is still the caller's array and [Some c] once a transform
    has returned another array, of contents [c]. *)
Fixpoint Compose_fold (T : Compose) (arg : EventBatch) (cur : option EventBatch)
  : Exn + (EventBatch * option EventBatch) :=
  match T with
  | [] => inr (arg, cur)
  | t :: T' =>
      match cur with
      | None =>
          match apply t arg with
          | inl e => inl e
          | inr (arg', RetArg) => Compose_fold T' arg' None
          | inr (arg', RetFresh c) => Compose_fold T' arg' (Some c)
          end
      | Some c =>
          match apply t c with
          | inl e => inl e
          | inr (c', RetArg) => Compose_fold T' arg (Some c')
          | inr (_, RetFresh d) => Compose_fold T' arg (Some d)
          end
      end
  end.

(** [T(events)]: the state of [events] after the call, and the returned
    array. *)
Definition Compose_call (T : Compose) (events : EventBatch)
  : Exn + (EventBatch * EventBatch) :=
  match Compose_fold T events None with
  | inl e => inl e
  | inr (arg, None) => inr (arg, arg)
  | inr (arg, Some c) => inr (arg, c)
  end.

(** [histo_quantized(xypt, output_array, total_tbins_delta_t, reset=...)]
    of [metavision_ml], an external library: it writes into
    [output_array] in place, so it cannot change the array's shape or
    element type.  It is taken as a parameter: the new cells of the
    buffer, or an exception.  [reset = None] is a call that leaves the
    keyword at its default. *)
Definition Binner : Type :=
  EventBatch -> Tensor -> Z -> option bool -> Exn + list Z.

(** ** Effects *)

(** The calls that leave the process, in program order. *)
Inductive Call : Type :=
| Call_transformations (events : EventBatch)
| Call_histo_quantized (xypt : EventBatch) (output_array : Tensor)
    (total_tbins_delta_t : Z) (reset : option bool)
| Call_CameraCapture
| Call_getNextEventBatch
| Call_send (frames : Tensor).

(** The result of running a piece of the program from a state: what was
    called, the state it leaves (also when it raises), and the value or
    the exception. *)
Record Outcome (S A : Type) : Type := mkOutcome {
  trace : list Call;
  final : S;
  result : Exn + A
}.
Arguments mkOutcome {S A}.
Arguments trace {S A}.
Arguments final {S A}.
Arguments result {S A}.

Definition Py (S A : Type) : Type := S -> Outcome S A.

Definition ret {S A} (a : A) : Py S A :=
  fun s => mkOutcome [] s (inr a).

Definition raise {S A} (c : ExnClass) (msg : string) : Py S A :=
  fun s => mkOutcome [] s (inl (Raise c msg)).

Definition bind {S A B} (m : Py S A) (f : A -> Py S B) : Py S B :=
  fun s =>
    let o := m s in
    match result o with
    | inl e => mkOutcome (trace o) (final o) (inl e)
    | inr a =>
        let o' := f a (final o) in
        mkOutcome (trace o ++ trace o') (final o') (result o')
    end.

Declare Scope py_scope.
Delimit Scope py_scope with py.
Notation "x <- m ;; k" := (bind m (fun x => k))
  (at level 61, m at next level, right associativity) : py_scope.
Notation "m ;; k" := (bind m (fun _ => k))
  (at level 61, right associativity) : py_scope.

Definition get {S} : Py S S := fun s => mkOutcome [] s (inr s).
Definition put {S} (s : S) : Py S unit := fun _ => mkOutcome [] s (inr tt).
Definition call {S} (c : Call) : Py S unit :=
  fun s => mkOutcome [c] s (inr tt).
Definition lift {S A} (r : Exn + A) : Py S A :=
  fun s => mkOutcome [] s r.

(** [try: body  except Exception: raise Exception(msg)]. *)
Definition try_except_raise {S A} (body : Py S A) (msg : string) : Py S A :=
  fun s =>
    let o := body s in
    match result o with
    | inl _ => mkOutcome (trace o) (final o) (inl (Raise Exception msg))
    | inr a => o
    end.

(** ** numpy *)

(** [np.zeros(shape, dtype=...)]: numpy refuses a negative dimension. *)
Definition np_zeros (shape : Shape) (d : DType) : Exn + Tensor :=
  if forallb (fun n => 0 <=? n) shape
  then inr (mkTensor d shape
              (repeat 0 (Z.to_nat (fold_right Z.mul 1 shape))))
  else inl (Raise ValueError "negative dimensions are not allowed").

Definition len {A} (l : list A) : Z := Z.of_nat (List.length l).

(** [np.max(a)] on a non-empty integer array. *)
Definition np_max (a : list Z) : Z :=
  match a with
  | [] => 0
  | x :: a' => fold_left Z.max a' x
  end.

(** Subtraction of two [np.int64] scalars: the result wraps around. *)
Definition wrap_int64 (z : Z) : Z :=
  (z + 2 ^ 63) mod 2 ^ 64 - 2 ^ 63.

Definition sub_int64 (a b : Z) : Z := wrap_int64 (a - b).

(** [np.random.rand]: the numbers it draws are an input of the model, the
    [k]-th number drawn being [rng k]; each lies in [[0, 1)].  Floating
    point numbers are read as the rationals they denote, and products
    are exact. *)
Definition RandomSource : Type := nat -> Q.

Definition np_random_rand (rng : RandomSource) (drawn n : nat) : list Q :=
  map rng (seq drawn n).

(** Storing a float into an [int] field truncates toward zero. *)
Definition astype_int (q : Q) : Z :=
  if Qle_bool 0 q then Qfloor q else Qceiling q.

Fixpoint insert_sorted (q : Q) (l : list Q) : list Q :=
  match l with
  | [] => [q]
  | r :: l' => if Qle_bool q r then q :: l else r :: insert_sorted q l'
  end.

(** [np.sort]: ascending. *)
Definition np_sort (l : list Q) : list Q :=
  fold_right insert_sorted [] l.

(** ** Invoking the collaborators *)

(** [transformations(events)]: the state of [events] after the call and
    the array the call returns. *)
Definition invoke_transformations {S} (T : Compose) (events : EventBatch)
  : Py S (EventBatch * EventBatch) :=
  (call (Call_transformations events) ;;
   lift (Compose_call T events))%py.

(** [histo_quantized(xypt, output_array, span, reset)]: the state of
    [output_array] after the call.  When the call raises, nothing is
    said about the buffer: the caller's state is left as it was. *)
Definition invoke_histo_quantized {S} (histo_quantized : Binner)
    (xypt : EventBatch) (output_array : Tensor) (total_tbins_delta_t : Z)
    (reset : option bool) : Py S Tensor :=
  (call (Call_histo_quantized xypt output_array total_tbins_delta_t reset) ;;
   c <- lift (histo_quantized xypt output_array total_tbins_delta_t reset) ;;
   ret (mkTensor (dtype output_array) (tshape output_array) c))%py.

(** A bias dictionary. *)
Definition Biases : Type := list (string * Z).

Definition is_None {A} (o : option A) : bool :=
  match o with None => true | Some _ => false end.

(** The keyword arguments [InivationCamera.__init__] hands to
    [AbstractProcess.__init__], which the process model reads back as
    [proc_params]. *)
Module ProcParams.
Record t : Type := mk {
  shape : Shape;
  biases : option Biases;
  device : string;
  transformations : option Compose;
  num_output_time_bins : Z
}.
End ProcParams.

(** ** The process [InivationCamera] *)

Module InivationCamera.

Record t : Type := mk {
  device : string;
  biases : option Biases;
  transformations : option Compose;
  num_output_time_bins : Z;
  shape : Shape;
  s_out : Shape;
  proc_params : ProcParams.t
}.

Definition n_random_spikes : nat := 1000.

Definition bins_message : string :=
  "Not Implemented: num_output_time_bins must be 1.".
Definition biases_message : string :=
  "Cant set biases if reading from file.".
Definition dry_run_message : string :=
  "Your transformation is not compatible with the provided data.".

(** The artificial data of the dry run: [np.zeros(n_random_spikes, ...)]
    with its four columns filled from four draws of
    [np.random.rand(n_random_spikes)]. *)
Definition test_data (rng : RandomSource) (height width : Z) : EventBatch :=
  let n := n_random_spikes in
  let xs := map (fun r => astype_int (r * inject_Z width))
                (np_random_rand rng 0 n) in
  let ys := map (fun r => astype_int (r * inject_Z height))
                (np_random_rand rng n n) in
  let ps := map (fun r => astype_int (r * inject_Z 2))
                (np_random_rand rng (2 * n) n) in
  let ts := map astype_int
                (np_sort (map (fun r => (r * inject_Z 1000000)%Q)
                              (np_random_rand rng (3 * n) n))) in
  map (fun i => mkEvent (nth i ys 0) (nth i xs 0) (nth i ps 0) (nth i ts 0))
      (seq 0 n).

(** The body of the [try] block of [__init__]. *)
Definition dry_run (histo_quantized : Binner) (rng : RandomSource)
    (T : Compose) (shape : Shape) (height width : Z) : Py unit unit :=
  (let test_data := test_data rng height width in
   r <- invoke_transformations T test_data ;;
   let test_data := fst r in
   if 0 <? len test_data then
     volume <- lift (np_zeros shape UInt8) ;;
     _ <- invoke_histo_quantized histo_quantized test_data volume
            (np_max (map ev_t test_data)) None ;;
     ret tt
   else ret tt)%py.

Definition init (histo_quantized : Binner) (rng : RandomSource)
    (sensor_shape : Z * Z) (device : string) (biases : option Biases)
    (transformations : option Compose) (num_output_time_bins : Z)
    (out_shape : option Shape) : Py unit t :=
  ((if (num_output_time_bins <? 0) || (num_output_time_bins >? 1)
    then raise ValueError bins_message
    else ret tt) ;;
   (if negb (is_None biases) && negb (device =? "")%string
    then raise ValueError biases_message
    else ret tt) ;;
   let '(height, width) := sensor_shape in
   let shape :=
     match out_shape with
     | Some out_shape => out_shape
     | None =>
         let event_shape := EventVolume.mk height width 2 in
         let event_shape :=
           match transformations with
           | Some T => determine_output_shape T event_shape
           | None => event_shape
           end in
         [num_output_time_bins;
          EventVolume.polarities event_shape;
          EventVolume.height event_shape;
          EventVolume.width event_shape]
     end in
   match transformations with
   | Some T =>
       try_except_raise
         (dry_run histo_quantized rng T shape height width)
         dry_run_message
   | None => ret tt
   end ;;
   ret (mk device biases transformations num_output_time_bins shape shape
          (ProcParams.mk shape biases device transformations 1)))%py.

End InivationCamera.

(** ** The process model [PyInivationCameraModel] *)

Module PyInivationCameraModel.

Record t : Type := mk {
  shape : Shape;
  num_output_time_bins : Z;
  polarities : Z;
  height : Z;
  width : Z;
  device : string;
  biases : option Biases;
  transformations : option Compose;
  volume : Tensor;
  t_pause : Z;
  t_last_iteration : Z;
  s_out : Shape
}.

(** [s_out: PyOutPort = LavaPyType(PyOutPort.VEC_DENSE, np.int32)]. *)
Definition s_out_d_type : DType := Int32.

(** [__init__]: [clock] holds the two successive readings of
    [time.time_ns()]. *)
Definition init (proc_params : ProcParams.t) (clock : Z * Z) : Py unit t :=
  match ProcParams.shape proc_params with
  | [num_output_time_bins; polarities; height; width] =>
      (call Call_CameraCapture ;;
       (if negb (is_None (ProcParams.biases proc_params))
        then raise NotImplementedError "Biases are not implemented yet."
        else ret tt) ;;
       volume <- lift (np_zeros [num_output_time_bins; polarities; height; width]
                                UInt8) ;;
       ret (mk (ProcParams.shape proc_params)
               num_output_time_bins polarities height width
               (ProcParams.device proc_params)
               (ProcParams.biases proc_params)
               (ProcParams.transformations proc_params)
               volume (fst clock) (snd clock)
               (ProcParams.shape proc_params)))%py
  | _ => raise ValueError "wrong number of values to unpack"
  end.

Definition set_volume (v : Tensor) (self : t) : t :=
  mk (shape self) (num_output_time_bins self) (polarities self) (height self)
     (width self) (device self) (biases self) (transformations self)
     v (t_pause self) (t_last_iteration self) (s_out self).

Definition set_t_pause (z : Z) (self : t) : t :=
  mk (shape self) (num_output_time_bins self) (polarities self) (height self)
     (width self) (device self) (biases self) (transformations self)
     (volume self) z (t_last_iteration self) (s_out self).

Definition set_t_last_iteration (z : Z) (self : t) : t :=
  mk (shape self) (num_output_time_bins self) (polarities self) (height self)
     (width self) (device self) (biases self) (transformations self)
     (volume self) (t_pause self) z (s_out self).

(** The copy of a camera batch into the structured array [events]. *)
Definition normalize (events_np : list RawEvent) : EventBatch :=
  map (fun r => mkEvent (raw_y r) (raw_x r) (raw_polarity r) (raw_timestamp r))
      events_np.

(** [events['t'][-1] - events['t'][0]] on a non-empty array. *)
Definition time_span (events : EventBatch) : Z :=
  sub_int64 (last (map ev_t events) 0) (hd 0 (map ev_t events)).

(** [run_spk]: [t_now] is the reading of [time.time_ns()] and
    [next_batch] what [capture.getNextEventBatch()] returns when it is
    asked ([None]: no batch). *)
Definition run_spk (histo_quantized : Binner) (t_now : Z)
    (next_batch : option (list RawEvent)) : Py t unit :=
  (self <- get ;;
   events <-
     (if t_pause self >? t_last_iteration self
      then raise NotImplementedError "Pausing it not implemented yet."
      else
        let delta_t := Z.max 10000 ((t_now - t_last_iteration self) / 1000) in
        call Call_getNextEventBatch ;;
        ret next_batch) ;;
   let events :=
     match events with
     | Some events_np => normalize events_np
     | None => []
     end in
   events <-
     (match transformations self with
      | Some T =>
          if 0 <? len events
          then r <- invoke_transformations T events ;; ret (fst r)
          else ret events
      | None => ret events
      end) ;;
   frames <-
     (if 0 <? len events
      then
        v <- invoke_histo_quantized histo_quantized events (volume self)
               (time_span events) (Some true) ;;
        self <- get ;;
        put (set_volume v self) ;;
        ret v
      else lift (np_zeros (s_out self) Float64)) ;;
   call (Call_send frames) ;;
   self <- get ;;
   put (set_t_last_iteration t_now self))%py.

(** [_pause]: [now] is the reading of [time.time_ns()]. *)
Definition _pause (now : Z) : Py t unit :=
  (self <- get ;;
   put (set_t_pause now self))%py.

End PyInivationCameraModel.

(** ** The histogram binner, from the specification *)

(** Modelled from the spec: [histo_quantized] belongs to the external
    library [metavision_ml] and is not part of the sources; this is the
    binner of section 4.2 of the specification.  The number of time bins
    is fixed to 1, so the time span is one window and every event falls
    into window 0; each event increments the counter at
    [[window, polarity, y, x]] by 1, saturating at 255; with [reset] the
    buffer is zeroed first (a call that leaves [reset] out is read as
    [reset=True]).  An event outside the buffer raises. *)
Module HistogramBinner.

Definition time_bin (total_tbins_delta_t t : Z) : Z := 0.

(** Row-major position of cell [[window, p, y, x]]. *)
Definition offset (shape : Shape) (window p y x : Z) : option nat :=
  match shape with
  | [B; P; H; W] =>
      if (0 <=? window) && (window <? B) && (0 <=? p) && (p <? P)
         && (0 <=? y) && (y <? H) && (0 <=? x) && (x <? W)
      then Some (Z.to_nat (((window * P + p) * H + y) * W + x))
      else None
  | _ => None
  end.

Fixpoint increment (cells : list Z) (i : nat) : list Z :=
  match cells, i with
  | [], _ => []
  | c :: cs, O => Z.min 255 (c + 1) :: cs
  | c :: cs, S i' => c :: increment cs i'
  end.

Definition cell_of (shape : Shape) (span : Z) (e : Event) : option nat :=
  offset shape (time_bin span (ev_t e)) (ev_p e) (ev_y e) (ev_x e).

Fixpoint accumulate (shape : Shape) (span : Z) (cells : list Z)
    (xypt : EventBatch) : Exn + list Z :=
  match xypt with
  | [] => inr cells
  | e :: rest =>
      match cell_of shape span e with
      | Some i => accumulate shape span (increment cells i) rest
      | None => inl (Raise IndexError "index out of bounds")
      end
  end.

Definition histo_quantized : Binner :=
  fun xypt output_array total_tbins_delta_t reset =>
    let start :=
      match reset with
      | Some false => cells output_array
      | _ => map (fun _ => 0) (cells output_array)
      end in
    accumulate (tshape output_array) total_tbins_delta_t start xypt.

End HistogramBinner.

(** ** States of the process model *)

(** The states the process model goes through: the one [__init__]
    builds, and those that ticks and pauses lead to. *)
Inductive Reachable (histo_quantized : Binner) : PyInivationCameraModel.t -> Prop :=
| Reachable_init proc_params clock self :
    result (PyInivationCameraModel.init proc_params clock tt) = inr self ->
    Reachable histo_quantized self
| Reachable_run_spk self t_now next_batch :
    Reachable histo_quantized self ->
    Reachable histo_quantized
      (final (PyInivationCameraModel.run_spk histo_quantized t_now next_batch self))
| Reachable_pause self now :
    Reachable histo_quantized self ->
    Reachable histo_quantized (final (PyInivationCameraModel._pause now self)).

Definition sum_cells (l : list Z) : Z := fold_right Z.add 0 l.

(** The declared output shape in the words of the specification: the
    explicit shape when one is supplied; otherwise the input shape with
    two polarities when there is no pipeline, and the left fold of the
    transforms' shape functions over it when there is one. *)
Definition spec_output_shape (height width : Z) (T : option Compose)
    (num_output_time_bins : Z) (out_shape : option Shape) : Shape :=
  match out_shape with
  | Some s => s
  | None =>
      match T with
      | None => [num_output_time_bins; 2; height; width]
      | Some T =>
          let v := fold_left (fun s t => infer_output_shape t s) T
                             (EventVolume.mk height width 2) in
          [num_output_time_bins; EventVolume.polarities v;
           EventVolume.height v; EventVolume.width v]
      end
  end.

(** The process that a successful construction returns. *)
Definition constructed (device : string) (biases : option Biases)
    (T : option Compose) (num_output_time_bins : Z) (shape : Shape)
  : InivationCamera.t :=
  InivationCamera.mk device biases T num_output_time_bins shape shape
    (ProcParams.mk shape biases device T 1).


(** The dry run in the words of the specification: run the pipeline over
    the batch; if the batch is non-empty afterwards, allocate a zeroed
    buffer of the target shape and run the binner once.  The result is
    the calls made and the exception, if one was raised on the way.  The
    batch "afterwards" is the array the pipeline was called on; the time
    span handed to the binner is the largest timestamp, as in the
    source. *)
Definition spec_dry_run (histo_quantized : Binner) (T : Compose)
    (shape : Shape) (batch : EventBatch) : list Call * (Exn + unit) :=
  match Compose_call T batch with
  | inl e => ([Call_transformations batch], inl e)
  | inr ([], _) => ([Call_transformations batch], inr tt)
  | inr (transformed, _) =>
      if forallb (fun n => 0 <=? n) shape then
        let buffer :=
          mkTensor UInt8 shape
            (repeat 0 (Z.to_nat (fold_right Z.mul 1 shape))) in
        let span := np_max (map ev_t transformed) in
        ([Call_transformations batch;
          Call_histo_quantized transformed buffer span None],
         match histo_quantized transformed buffer span None with
         | inl e => inl e
         | inr _ => inr tt
         end)
      else
        ([Call_transformations batch],
         inl (Raise ValueError "negative dimensions are not allowed"))
  end.

(** The declared shape of a construction, or the exception it raised. *)
Definition declared (o : Outcome unit InivationCamera.t) : Exn + Shape :=
  match result o with
  | inl e => inl e
  | inr proc => inr (InivationCamera.shape proc)
  end.


(** ** Fixtures *)

Module Fixtures.

(** A transformation that writes in place: both polarities become
    channel 0. *)
Definition merge_polarities : Transformation :=
  mkTransformation
    (fun b => inr (map (fun e => mkEvent (ev_y e) (ev_x e) 0 (ev_t e)) b,
                   RetArg))
    (fun s => EventVolume.mk (EventVolume.height s) (EventVolume.width s) 1).

(** A transformation that leaves its argument alone and returns a new
    array: coordinates halved. *)
Definition downsample : Transformation :=
  mkTransformation
    (fun b => inr (b, RetFresh
                        (map (fun e => mkEvent (ev_y e / 2) (ev_x e / 2)
                                         (ev_p e) (ev_t e)) b)))
    (fun s => EventVolume.mk (EventVolume.height s / 2)
                (EventVolume.width s / 2) (EventVolume.polarities s)).

(** A transformation that always raises. *)
Definition broken : Transformation :=
  mkTransformation
    (fun _ => inl (Raise IndexError "broken"))
    (fun s => s).

Definition half : RandomSource := fun _ => (1 # 2)%Q.

(** The process model of a 4 by 4 sensor, as [__init__] builds it at
    clock reading 0, with or without a pipeline. *)
Definition params (T : option Compose) : ProcParams.t :=
  ProcParams.mk [1; 2; 4; 4] None "" T 1.

Definition model (T : option Compose) : PyInivationCameraModel.t :=
  PyInivationCameraModel.mk [1; 2; 4; 4] 1 2 4 4 "" None T
    (mkTensor UInt8 [1; 2; 4; 4] (repeat 0 32)) 0 0 [1; 2; 4; 4].

(** The three events of the end-to-end scenario of the specification. *)
Definition three_events : list RawEvent :=
  [mkRawEvent 0 0 0 0; mkRawEvent 5 1 1 1; mkRawEvent 10 0 0 0].

End Fixtures.

(** ** Reading a tick *)

(** The batch of a tick as [run_spk] normalizes it: empty when the
    camera returns no batch. *)
Definition received (next_batch : option (list RawEvent)) : EventBatch :=
  match next_batch with
  | Some events_np => PyInivationCameraModel.normalize events_np
  | None => []
  end.

(** The batch after the pipeline step of a tick: the pipeline is called
    on a non-empty batch when one is configured, and what counts
    afterwards is the array it was called on. *)
Definition after_pipeline (T : option Compose) (events : EventBatch)
  : Exn + EventBatch :=
  match T, events with
  | Some T, _ :: _ =>
      match Compose_call T events with
      | inl e => inl e
      | inr r => inr (fst r)
      end
  | _, _ => inr events
  end.

Definition pipeline_calls (T : option Compose) (events : EventBatch)
  : list Call :=
  match T, events with
  | Some _, _ :: _ => [Call_transformations events]
  | _, _ => []
  end.

(** [np.zeros(shape)] for a shape without negative dimension. *)
Definition zeros (shape : Shape) (d : DType) : Tensor :=
  mkTensor d shape (repeat 0 (Z.to_nat (fold_right Z.mul 1 shape))).

(** A transformation that never raises and never writes into its
    argument: whatever it computes is in the array it returns. *)
Definition pure_transformation (t : Transformation) : Prop :=
  forall b, exists r, apply t b = inr (b, r).

(** What [__init__] establishes and every tick keeps: the port has the
    four non-negative dimensions of the shape, and the buffer is an
    unsigned 8-bit array of that shape. *)
Definition model_ok (self : PyInivationCameraModel.t) : Prop :=
  PyInivationCameraModel.s_out self = PyInivationCameraModel.shape self /\
  PyInivationCameraModel.shape self
  = [PyInivationCameraModel.num_output_time_bins self;
     PyInivationCameraModel.polarities self;
     PyInivationCameraModel.height self;
     PyInivationCameraModel.width self] /\
  Forall (fun n => 0 <= n) (PyInivationCameraModel.shape self) /\
  tshape (PyInivationCameraModel.volume self)
  = PyInivationCameraModel.shape self /\
  dtype (PyInivationCameraModel.volume self) = UInt8.

Definition is_send (c : Call) : bool :=
  match c with Call_send _ => true | _ => false end.

Definition is_histo_quantized (c : Call) : bool :=
  match c with Call_histo_quantized _ _ _ _ => true | _ => false end.

Definition pausing_message : string := "Pausing it not implemented yet.".

(** The element types the output sink accepts: an unsigned 8-bit or
    wider integer. *)
Definition is_integer_dtype (d : DType) : bool :=
  match d with
  | UInt8 | Int32 | Int64 => true
  | Float64 => false
  end.

(** The number of events of a batch that the binner of the
    specification counts in cell [i] of a buffer of shape [shape]. *)
Definition hits (shape : Shape) (span : Z) (i : nat) (events : EventBatch)
  : Z :=
  len (filter (fun e =>
                 match HistogramBinner.cell_of shape span e with
                 | Some j => Nat.eqb j i
                 | None => false
                 end) events).


(** A batch of 256 events on one pixel, timestamps 0 to 255. *)
Definition hot_pixel : list RawEvent :=
  map (fun k => mkRawEvent (Z.of_nat k) 0 0 0) (seq 0 256).

Definition is_poll (c : Call) : bool :=
  match c with Call_getNextEventBatch => true | _ => false end.

Definition is_CameraCapture (c : Call) : bool :=
  match c with Call_CameraCapture => true | _ => false end.

Definition biases_not_implemented_message : string :=
  "Biases are not implemented yet.".

(** * Properties *)

(** ** Construction *)

Section Construction.

Variable histo_quantized : Binner.
Variable rng : RandomSource.

Lemma init_bins_rejected sensor_shape device biases T n out_shape :
  n < 0 \/ 1 < n ->
  InivationCamera.init histo_quantized rng sensor_shape device biases T n
    out_shape tt
  = mkOutcome [] tt (inl (Raise ValueError InivationCamera.bins_message)).
Proof.
  intros Hn. unfold InivationCamera.init, bind.
  replace ((n <? 0) || (n >? 1)) with true; [reflexivity|].
  symmetry. apply orb_true_iff. rewrite Z.ltb_lt, Z.gtb_ltb, Z.ltb_lt. lia.
Qed.

Lemma bins_check_passes n :
  0 <= n <= 1 -> (n <? 0) || (n >? 1) = false.
Proof.
  intros Hn. apply orb_false_iff. rewrite Z.ltb_ge, Z.gtb_ltb, Z.ltb_ge. lia.
Qed.

Lemma init_biases_rejected sensor_shape device b T n out_shape :
  0 <= n <= 1 -> device <> ""%string ->
  InivationCamera.init histo_quantized rng sensor_shape device (Some b) T n
    out_shape tt
  = mkOutcome [] tt (inl (Raise ValueError InivationCamera.biases_message)).
Proof.
  intros Hn Hd. unfold InivationCamera.init, bind.
  rewrite (bins_check_passes n Hn). cbn.
  destruct (String.eqb_spec device ""); [contradiction | reflexivity].
Qed.

(** Past the two checks, construction is the shape computation followed
    by the dry run. *)
Lemma init_checked h w device biases T n out_shape :
  0 <= n <= 1 -> biases = None \/ device = ""%string ->
  InivationCamera.init histo_quantized rng (h, w) device biases T n
    out_shape tt
  = let shape := spec_output_shape h w T n out_shape in
    match T with
    | None => mkOutcome [] tt (inr (constructed device biases T n shape))
    | Some T' =>
        let o := InivationCamera.dry_run histo_quantized rng T' shape h w tt in
        match result o with
        | inl _ =>
            mkOutcome (trace o) tt
              (inl (Raise Exception InivationCamera.dry_run_message))
        | inr _ =>
            mkOutcome (trace o) tt (inr (constructed device biases T n shape))
        end
    end.
Proof.
  intros Hn Hb. unfold InivationCamera.init, bind.
  rewrite (bins_check_passes n Hn). cbn [ret raise result trace final app].
  replace (negb (is_None biases) && negb (device =? "")%string) with false.
  2:{ destruct Hb as [-> | ->]; [reflexivity|].
      destruct biases; reflexivity. }
  cbn [ret raise result trace final app].
  destruct T as [T'|].
  - unfold try_except_raise, spec_output_shape, determine_output_shape.
    set (shape := match out_shape with Some s => s | None => _ end).
    destruct (result (InivationCamera.dry_run _ _ _ shape _ _ _)) eqn:E;
      cbn -[InivationCamera.dry_run]; rewrite ?E;
      cbn -[InivationCamera.dry_run]; rewrite ?app_nil_r;
      destruct (final _); reflexivity.
  - destruct out_shape; reflexivity.
Qed.

End Construction.

(** ** numpy helpers *)

Section Numpy.

Lemma nth_Forall {A} (P : A -> Prop) (l : list A) (d : A) (i : nat) :
  Forall P l -> P d -> P (nth i l d).
Proof.
  intros Hl Hd. revert i.
  induction Hl as [|a l Ha _ IH]; intros [|i]; simpl; auto.
Qed.










End Numpy.

(** ** The dry run *)

Section DryRun.

Variable histo_quantized : Binner.
Variable rng : RandomSource.
Hypothesis rng_unit : forall k, (0 <= rng k)%Q /\ (rng k < 1)%Q.


Lemma test_data_length h w :
  List.length (InivationCamera.test_data rng h w) = 1000%nat.
Proof.
  unfold InivationCamera.test_data. now rewrite length_map, length_seq.
Qed.




End DryRun.

Section DryRunFlow.

Variable histo_quantized : Binner.
Variable rng : RandomSource.

Lemma len_cons {A} (a : A) (l : list A) : (0 <? len (a :: l)) = true.
Proof. apply Z.ltb_lt. unfold len. simpl List.length. lia. Qed.

Lemma len_positive {A} (l : list A) : (0 <? len l) = true <-> l <> [].
Proof.
  destruct l as [|a l]; split; intros H; easy.
Qed.

Lemma dry_run_spec T shape h w :
  let o := InivationCamera.dry_run histo_quantized rng T shape h w tt in
  let s := spec_dry_run histo_quantized T shape
             (InivationCamera.test_data rng h w) in
  trace o = fst s /\
  match result o, snd s with
  | inl e, inl e' => e = e'
  | inr _, inr _ => True
  | _, _ => False
  end.
Proof.
  unfold InivationCamera.dry_run, spec_dry_run, invoke_transformations,
    invoke_histo_quantized, bind, call, lift, ret.
  cbn [trace final result app].
  destruct (Compose_call T _) as [e | [[|a td'] r]]; cbn [fst snd trace final result app].
  - split; reflexivity.
  - split; [reflexivity | exact I].
  - rewrite len_cons. unfold np_zeros.
    destruct (forallb _ shape); cbn [fst snd trace final result app].
    + destruct (histo_quantized _ _ _ _); cbn [fst snd trace final result app];
        split; auto.
    + split; reflexivity.
Qed.

End DryRunFlow.

(** ** Claims about construction *)

Section ConstructionClaims.

Variable histo_quantized : Binner.
Variable rng : RandomSource.

(** With [num_output_time_bins] 0 or 1, construction can only fail on
    the biases check or in the dry run. *)
Lemma init_errors h w device biases T n out_shape e :
  0 <= n <= 1 ->
  result (InivationCamera.init histo_quantized rng (h, w) device biases T n
            out_shape tt) = inl e ->
  e = Raise ValueError InivationCamera.biases_message \/
  e = Raise Exception InivationCamera.dry_run_message.
Proof.
  intros Hn H.
  destruct biases as [b|]; [destruct (string_dec device "") as [Hd|Hd]|].
  1,3: rewrite init_checked in H by auto; cbv zeta in H;
       destruct T as [T'|]; [|discriminate];
       destruct (result (InivationCamera.dry_run _ _ _ _ _ _ _));
       [right; cbn in H; congruence | discriminate].
  left. rewrite init_biases_rejected in H by assumption.
  cbn in H. congruence.
Qed.

(** C2: [num_output_time_bins] is checked first.  Every integer below 0
    or above 1 is rejected with the message that it must be 1; with 1,
    construction can fail only on the biases check or in the dry run and
    succeeds otherwise; but 0 passes the check as well, and the sensor
    is constructed with a shape of zero time bins. *)
Theorem num_output_time_bins_zero_accepted :
  (forall sensor_shape device biases T n out_shape,
      n < 0 \/ 1 < n ->
      result (InivationCamera.init histo_quantized rng sensor_shape device
                biases T n out_shape tt)
      = inl (Raise ValueError InivationCamera.bins_message)) /\
  (forall h w device biases T out_shape e,
      result (InivationCamera.init histo_quantized rng (h, w) device
                biases T 1 out_shape tt) = inl e ->
      e = Raise ValueError InivationCamera.biases_message \/
      e = Raise Exception InivationCamera.dry_run_message) /\
  (forall h w,
      result (InivationCamera.init histo_quantized rng (h, w) "" None None 1
                None tt)
      = inr (constructed "" None None 1 [1; 2; h; w])) /\
  (forall h w,
      result (InivationCamera.init histo_quantized rng (h, w) "" None None 0
                None tt)
      = inr (constructed "" None None 0 [0; 2; h; w])).
Proof.
  split; [|split; [|split]].
  - intros. now rewrite init_bins_rejected.
  - intros h w device biases T out_shape e. apply init_errors. lia.
  - reflexivity.
  - reflexivity.
Qed.

(** C5: a bias mapping together with a non-empty device string makes
    construction fail with a [ValueError] (the biases message, once
    [num_output_time_bins] is accepted); without biases, or with the
    empty device string, construction never fails with the biases
    message. *)
Theorem biases_with_file_device :
  (forall sensor_shape device b T n out_shape,
      device <> ""%string ->
      exists msg,
        result (InivationCamera.init histo_quantized rng sensor_shape device
                  (Some b) T n out_shape tt)
        = inl (Raise ValueError msg) /\
        (0 <= n <= 1 -> msg = InivationCamera.biases_message)) /\
  (forall h w device biases T n out_shape,
      biases = None \/ device = ""%string ->
      result (InivationCamera.init histo_quantized rng (h, w) device biases T
                n out_shape tt)
      <> inl (Raise ValueError InivationCamera.biases_message)).
Proof.
  split.
  - intros sensor_shape device b T n out_shape Hd.
    destruct (Z_lt_le_dec n 0) as [Hn|Hn]; [|destruct (Z_lt_le_dec 1 n) as [Hn'|Hn']].
    1,2: exists InivationCamera.bins_message;
         rewrite init_bins_rejected by lia; split; [reflexivity | lia].
    exists InivationCamera.biases_message.
    rewrite init_biases_rejected by (assumption || lia). now split.
  - intros h w device biases T n out_shape Hb H.
    destruct (Z_lt_le_dec n 0) as [Hn|Hn]; [|destruct (Z_lt_le_dec 1 n) as [Hn'|Hn']].
    1,2: rewrite init_bins_rejected in H by lia; discriminate.
    rewrite init_checked in H by (assumption || lia). cbv zeta in H.
    destruct T as [T'|]; [|discriminate].
    destruct (result (InivationCamera.dry_run _ _ _ _ _ _ _)); discriminate.
Qed.

End ConstructionClaims.

Section ShapeAndDryRun.

Variable histo_quantized : Binner.
Variable rng : RandomSource.

Lemma init_success h w device biases T n out_shape proc :
  result (InivationCamera.init histo_quantized rng (h, w) device biases T n
            out_shape tt) = inr proc ->
  proc = constructed device biases T n (spec_output_shape h w T n out_shape).
Proof.
  intros H.
  destruct (Z_lt_le_dec n 0) as [Hn|Hn]; [|destruct (Z_lt_le_dec 1 n) as [Hn'|Hn']].
  1,2: rewrite init_bins_rejected in H by lia; discriminate.
  assert (Hb : biases = None \/ device = ""%string).
  { destruct biases as [b|]; [|now left].
    destruct (string_dec device "") as [Hd|Hd]; [now right|].
    rewrite init_biases_rejected in H by (assumption || lia). discriminate. }
  rewrite init_checked in H by (assumption || lia). cbv zeta in H.
  destruct T as [T'|]; [|cbn in H; congruence].
  destruct (result (InivationCamera.dry_run _ _ _ _ _ _ _));
    cbn in H; congruence.
Qed.

(** A call of the pipeline consults the [apply] functions only. *)
Lemma Compose_fold_apply T1 T2 :
  map apply T1 = map apply T2 ->
  forall arg cur, Compose_fold T1 arg cur = Compose_fold T2 arg cur.
Proof.
  revert T2. induction T1 as [|t1 T1 IH]; intros [|t2 T2] H; try discriminate.
  - reflexivity.
  - injection H as Ht HT. intros arg cur. simpl. rewrite Ht.
    destruct cur as [c|].
    + destruct (apply t2 c) as [e|[c' [|d]]]; auto.
    + destruct (apply t2 arg) as [e|[arg' [|d]]]; auto.
Qed.

Lemma dry_run_apply T1 T2 shape h w :
  map apply T1 = map apply T2 ->
  InivationCamera.dry_run histo_quantized rng T1 shape h w tt
  = InivationCamera.dry_run histo_quantized rng T2 shape h w tt.
Proof.
  intros H. unfold InivationCamera.dry_run, invoke_transformations, bind, lift,
    Compose_call.
  now rewrite (Compose_fold_apply T1 T2 H).
Qed.

(** With an explicit output shape, construction does not depend on the
    shape functions of the pipeline. *)
Lemma out_shape_bypasses_inference h w device biases T1 T2 n s :
  map apply T1 = map apply T2 ->
  let o1 := InivationCamera.init histo_quantized rng (h, w) device biases
              (Some T1) n (Some s) tt in
  let o2 := InivationCamera.init histo_quantized rng (h, w) device biases
              (Some T2) n (Some s) tt in
  trace o1 = trace o2 /\ declared o1 = declared o2.
Proof.
  intros H o1 o2. subst o1 o2.
  destruct (Z_lt_le_dec n 0) as [Hn|Hn]; [|destruct (Z_lt_le_dec 1 n) as [Hn'|Hn']].
  1,2: rewrite !init_bins_rejected by lia; now split.
  destruct biases as [b|]; [destruct (string_dec device "") as [Hd|Hd]|].
  2: rewrite !init_biases_rejected by (assumption || lia); now split.
  all: rewrite !init_checked by (auto || lia); cbv zeta;
       unfold spec_output_shape; rewrite (dry_run_apply T1 T2 s h w H);
       destruct (result (InivationCamera.dry_run _ _ _ _ _ _ _));
       now split.
Qed.

(** C3: the declared output shape of a constructed process.  Without
    [out_shape] it is [(num_output_time_bins, 2, height, width)] when no
    pipeline is configured, and otherwise the time bins followed by the
    polarities, height and width of the left fold of the transforms'
    shape functions over [EventVolume(height, width, 2)]; with an
    explicit [out_shape] it is that shape, and neither the calls made nor
    the declared shape depend on the shape functions of the pipeline. *)
Theorem declared_output_shape h w device biases T n out_shape proc :
  result (InivationCamera.init histo_quantized rng (h, w) device biases T n
            out_shape tt) = inr proc ->
  InivationCamera.shape proc = spec_output_shape h w T n out_shape /\
  InivationCamera.s_out proc = InivationCamera.shape proc /\
  (forall s, out_shape = Some s ->
     InivationCamera.shape proc = s /\
     forall T1 T2, map apply T1 = map apply T2 ->
       let o1 := InivationCamera.init histo_quantized rng (h, w) device
                   biases (Some T1) n (Some s) tt in
       let o2 := InivationCamera.init histo_quantized rng (h, w) device
                   biases (Some T2) n (Some s) tt in
       trace o1 = trace o2 /\ declared o1 = declared o2).
Proof.
  intros H. apply init_success in H. subst proc. cbn.
  split; [reflexivity | split; [reflexivity|]].
  intros s ->. split; [reflexivity|].
  intros T1 T2 HT. now apply out_shape_bypasses_inference.
Qed.


End ShapeAndDryRun.

(** Witness of C3: a 4 by 4 sensor with the polarity-merging pipeline. *)
Lemma declared_output_shape_witness :
  result (InivationCamera.init HistogramBinner.histo_quantized Fixtures.half
            (4, 4) "" None (Some [Fixtures.merge_polarities]) 1 None tt)
  = inr (constructed "" None (Some [Fixtures.merge_polarities]) 1 [1; 1; 4; 4])
  /\
  InivationCamera.shape
    (constructed "" None (Some [Fixtures.merge_polarities]) 1 [1; 1; 4; 4])
  = spec_output_shape 4 4 (Some [Fixtures.merge_polarities]) 1 None.
Proof.
  assert (H : result (InivationCamera.init HistogramBinner.histo_quantized
                        Fixtures.half (4, 4) "" None
                        (Some [Fixtures.merge_polarities]) 1 None tt)
              = inr (constructed "" None (Some [Fixtures.merge_polarities]) 1
                       [1; 1; 4; 4]))
    by (vm_compute; reflexivity).
  split; [exact H|].
  exact (proj1 (declared_output_shape HistogramBinner.histo_quantized
                  Fixtures.half 4 4 "" None (Some [Fixtures.merge_polarities])
                  1 None _ H)).
Defined.


(** ** The acquisition loop *)

Section Loop.

Variable histo_quantized : Binner.

Lemma np_zeros_ok shape d :
  Forall (fun n => 0 <= n) shape -> np_zeros shape d = inr (zeros shape d).
Proof.
  intros H. unfold np_zeros.
  replace (forallb (fun n => 0 <=? n) shape) with true; [reflexivity|].
  symmetry. apply forallb_forall. intros n Hn. apply Z.leb_le.
  revert n Hn. now apply Forall_forall.
Qed.

Lemma np_zeros_inv shape d v :
  np_zeros shape d = inr v ->
  v = zeros shape d /\ Forall (fun n => 0 <= n) shape.
Proof.
  unfold np_zeros. destruct (forallb _ shape) eqn:E; [|discriminate].
  intros H. injection H as <-. split; [reflexivity|].
  apply Forall_forall. intros n Hn. apply Z.leb_le.
  revert n Hn. now apply forallb_forall.
Qed.

Lemma zeros_all_zero shape d : Forall (fun c => c = 0) (cells (zeros shape d)).
Proof. apply Forall_forall. intros c Hc. now apply repeat_spec in Hc. Qed.

(** A tick that finds the model paused. *)
Lemma run_spk_paused self t_now next_batch :
  PyInivationCameraModel.t_pause self
  > PyInivationCameraModel.t_last_iteration self ->
  PyInivationCameraModel.run_spk histo_quantized t_now next_batch self
  = mkOutcome [] self (inl (Raise NotImplementedError pausing_message)).
Proof.
  intros H. unfold PyInivationCameraModel.run_spk, bind, get.
  cbn [result trace final].
  replace (_ >? _) with true; [reflexivity|].
  symmetry. rewrite Z.gtb_ltb. apply Z.ltb_lt. lia.
Qed.

(** A tick that polls the camera, case by case. *)
Lemma run_spk_running self t_now next_batch :
  PyInivationCameraModel.t_pause self
  <= PyInivationCameraModel.t_last_iteration self ->
  PyInivationCameraModel.run_spk histo_quantized t_now next_batch self
  = let T := PyInivationCameraModel.transformations self in
    let volume := PyInivationCameraModel.volume self in
    let events := received next_batch in
    let pre := Call_getNextEventBatch :: pipeline_calls T events in
    match after_pipeline T events with
    | inl e => mkOutcome pre self (inl e)
    | inr [] =>
        match np_zeros (PyInivationCameraModel.s_out self) Float64 with
        | inl e => mkOutcome pre self (inl e)
        | inr frames =>
            mkOutcome (pre ++ [Call_send frames])
              (PyInivationCameraModel.set_t_last_iteration t_now self)
              (inr tt)
        end
    | inr events' =>
        let span := PyInivationCameraModel.time_span events' in
        let called := Call_histo_quantized events' volume span (Some true) in
        match histo_quantized events' volume span (Some true) with
        | inl e => mkOutcome (pre ++ [called]) self (inl e)
        | inr c =>
            let v := mkTensor (dtype volume) (tshape volume) c in
            mkOutcome (pre ++ [called; Call_send v])
              (PyInivationCameraModel.set_t_last_iteration t_now
                 (PyInivationCameraModel.set_volume v self))
              (inr tt)
        end
    end.
Proof.
  intros H. unfold PyInivationCameraModel.run_spk, bind, get.
  cbn [result trace final].
  replace (_ >? _) with false
    by (symmetry; rewrite Z.gtb_ltb; apply Z.ltb_ge; lia).
  unfold call, ret, put. cbn [result trace final app].
  unfold after_pipeline, pipeline_calls, received.
  set (events0 := match next_batch with
                  | Some events_np => PyInivationCameraModel.normalize events_np
                  | None => []
                  end).
  clearbody events0.
  destruct (PyInivationCameraModel.transformations self) as [T|],
           events0 as [|a events];
    rewrite ?len_cons; cbn [len List.length Z.of_nat Z.ltb Z.compare].
  - cbn [result trace final app]. unfold lift.
    destruct (np_zeros _ _); reflexivity.
  - unfold invoke_transformations, bind, call, lift.
    cbn [result trace final app].
    destruct (Compose_call T (a :: events)) as [e|[[|b events'] r]];
      cbn [result trace final app fst].
    + reflexivity.
    + cbn [len List.length Z.of_nat Z.ltb Z.compare]. unfold lift.
      destruct (np_zeros _ _); reflexivity.
    + rewrite len_cons. unfold invoke_histo_quantized, bind, call, lift, ret.
      cbn [result trace final app].
      destruct (histo_quantized _ _ _ _); reflexivity.
  - cbn [result trace final app]. unfold lift.
    destruct (np_zeros _ _); reflexivity.
  - unfold invoke_histo_quantized, bind, call, lift, ret.
    cbn [result trace final app].
    destruct (histo_quantized _ _ _ _); reflexivity.
Qed.

End Loop.

Section LoopInvariant.

Variable histo_quantized : Binner.

Lemma init_ok proc_params clock self :
  result (PyInivationCameraModel.init proc_params clock tt) = inr self ->
  model_ok self.
Proof.
  unfold PyInivationCameraModel.init.
  destruct (ProcParams.shape proc_params) as [|n [|p [|h [|w [|x l]]]]] eqn:Es;
    try discriminate.
  unfold bind, call, ret, lift. cbn [result trace final].
  destruct (ProcParams.biases proc_params); cbn [is_None negb]; [discriminate|].
  cbn [ret result trace final].
  destruct (np_zeros [n; p; h; w] UInt8) as [e|v] eqn:Ez; cbn [result];
    [discriminate|].
  intros H. injection H as <-.
  apply np_zeros_inv in Ez. destruct Ez as [-> Hnn].
  unfold model_ok. cbn. repeat split; auto.
Qed.

Lemma run_spk_ok self t_now next_batch :
  model_ok self ->
  model_ok (final (PyInivationCameraModel.run_spk histo_quantized t_now
                     next_batch self)).
Proof.
  intros Hok.
  destruct (Z_gt_le_dec (PyInivationCameraModel.t_pause self)
              (PyInivationCameraModel.t_last_iteration self)) as [Hp|Hp].
  - now rewrite run_spk_paused.
  - rewrite run_spk_running by assumption. cbv zeta.
    destruct (after_pipeline _ _) as [e|[|a events']]; [assumption| |].
    + destruct (np_zeros _ _); exact Hok.
    + destruct (histo_quantized _ _ _ _); [assumption|].
      destruct Hok as (H1 & H2 & H3 & H4 & H5).
      unfold model_ok. cbn. repeat split; assumption.
Qed.

Lemma Reachable_ok self : Reachable histo_quantized self -> model_ok self.
Proof.
  induction 1 as [pp clock self H | self t_now nb _ IH | self now _ IH].
  - eapply init_ok; eauto.
  - now apply run_spk_ok.
  - exact IH.
Qed.


Lemma filter_histo_quantized_pre T events l :
  filter is_histo_quantized
    (Call_getNextEventBatch :: pipeline_calls T events ++ l)
  = filter is_histo_quantized l.
Proof. destruct T, events; reflexivity. Qed.

Lemma filter_send_pre T events l :
  filter is_send (Call_getNextEventBatch :: pipeline_calls T events ++ l)
  = filter is_send l.
Proof. destruct T, events; reflexivity. Qed.

Lemma sub_int64_exact a b :
  - 2 ^ 63 <= a - b < 2 ^ 63 -> sub_int64 a b = a - b.
Proof.
  intros H. unfold sub_int64, wrap_int64.
  rewrite Z.mod_small; lia.
Qed.

Lemma hd_Forall {A} (P : A -> Prop) (l : list A) (d : A) :
  Forall P l -> l <> [] -> P (hd d l).
Proof. intros H Hl. destruct H; [contradiction | assumption]. Qed.

Lemma last_Forall {A} (P : A -> Prop) (l : list A) (d : A) :
  Forall P l -> l <> [] -> P (last l d).
Proof.
  induction 1 as [|a l Ha Hl IH]; intros Hne; [contradiction|].
  destruct l as [|b l]; [exact Ha|].
  change (P (last (b :: l) d)). apply IH. discriminate.
Qed.

(** On microsecond timestamps (non-negative 64-bit integers) the span of
    a non-empty batch is the plain difference of its last and first
    timestamp. *)
Lemma time_span_exact events :
  events <> [] ->
  Forall (fun e => 0 <= ev_t e < 2 ^ 63) events ->
  PyInivationCameraModel.time_span events
  = last (map ev_t events) 0 - hd 0 (map ev_t events).
Proof.
  intros Hne H. unfold PyInivationCameraModel.time_span.
  assert (Ht : Forall (fun t => 0 <= t < 2 ^ 63) (map ev_t events)).
  { apply Forall_forall. intros t Ht. apply in_map_iff in Ht.
    destruct Ht as [e [<- He]]. revert e He. now apply Forall_forall. }
  assert (Hm : map ev_t events <> []) by (destruct events; easy).
  pose proof (hd_Forall _ _ 0 Ht Hm) as Hh.
  pose proof (last_Forall _ _ 0 Ht Hm) as Hl.
  cbv beta in Hh, Hl. apply sub_int64_exact. lia.
Qed.

(** A pipeline of transformations that do not write in place leaves the
    array it is called on as it was. *)
Lemma Compose_fold_pure T :
  Forall pure_transformation T ->
  forall b cur, exists cur', Compose_fold T b cur = inr (b, cur').
Proof.
  induction 1 as [|t T Ht _ IH]; intros b cur; simpl.
  - now exists cur.
  - destruct cur as [c|].
    + destruct (Ht c) as [r ->]. destruct r; apply IH.
    + destruct (Ht b) as [r ->]. destruct r; apply IH.
Qed.

Lemma Compose_call_pure T b :
  Forall pure_transformation T ->
  exists returned, Compose_call T b = inr (b, returned).
Proof.
  intros H. unfold Compose_call.
  destruct (Compose_fold_pure T H b None) as [[c|] ->]; eauto.
Qed.

End LoopInvariant.

(** ** Claims about the acquisition loop *)

Section LoopClaims.

Variable histo_quantized : Binner.

Lemma Reachable_model T : Reachable histo_quantized (Fixtures.model T).
Proof. now apply (Reachable_init _ (Fixtures.params T) (0, 0)). Qed.


(** C6: a tick that finds [t_pause > t_last_iteration] raises the
    not-implemented fault; nothing was called (the camera was not
    polled, no frame was sent) and the model is as it was, so
    [t_last_iteration] keeps its value. *)
Theorem pause_not_implemented self t_now next_batch :
  PyInivationCameraModel.t_pause self
  > PyInivationCameraModel.t_last_iteration self ->
  let o := PyInivationCameraModel.run_spk histo_quantized t_now next_batch
             self in
  result o = inl (Raise NotImplementedError pausing_message) /\
  trace o = [] /\
  final o = self /\
  PyInivationCameraModel.t_last_iteration (final o)
  = PyInivationCameraModel.t_last_iteration self.
Proof.
  intros H o. subst o. rewrite run_spk_paused by assumption.
  repeat split.
Qed.

(** A pause later than the last tick makes the next tick raise. *)
Lemma tick_after_pause self now t_now next_batch :
  now > PyInivationCameraModel.t_last_iteration self ->
  result (PyInivationCameraModel.run_spk histo_quantized t_now next_batch
            (final (PyInivationCameraModel._pause now self)))
  = inl (Raise NotImplementedError pausing_message).
Proof.
  intros H. now rewrite run_spk_paused.
Qed.


End LoopClaims.

Section SinkAndPipelineClaims.

Variable histo_quantized : Binner.

Lemma forallb_nonneg shape :
  Forall (fun n => 0 <= n) shape -> forallb (fun n => 0 <=? n) shape = true.
Proof.
  intros H. apply forallb_forall. intros n Hn. apply Z.leb_le.
  revert n Hn. now apply Forall_forall.
Qed.

(** Every tick that returns normally sends exactly one frame, of the
    configured shape; its element type is that of the buffer when the
    binner ran and that of [np.zeros(shape)] when it did not. *)
Lemma tick_emits_one_frame self t_now next_batch :
  Reachable histo_quantized self ->
  let o := PyInivationCameraModel.run_spk histo_quantized t_now next_batch
             self in
  result o = inr tt ->
  exists frame,
    filter is_send (trace o) = [Call_send frame] /\
    tshape frame = [PyInivationCameraModel.num_output_time_bins self;
                    PyInivationCameraModel.polarities self;
                    PyInivationCameraModel.height self;
                    PyInivationCameraModel.width self] /\
    dtype frame =
      match after_pipeline (PyInivationCameraModel.transformations self)
              (received next_batch) with
      | inr [] => Float64
      | _ => UInt8
      end.
Proof.
  intros Hr o. subst o.
  destruct (Reachable_ok _ _ Hr) as (Hs & Hsh & Hnn & Hv & Hd).
  destruct (Z_gt_le_dec (PyInivationCameraModel.t_pause self)
              (PyInivationCameraModel.t_last_iteration self)) as [Hp|Hp].
  { rewrite run_spk_paused by assumption. discriminate. }
  rewrite run_spk_running by assumption. cbv zeta.
  destruct (after_pipeline _ _) as [e|[|a events']]; [discriminate| |].
  - rewrite Hs, np_zeros_ok by assumption. intros _.
    exists (zeros (PyInivationCameraModel.shape self) Float64).
    cbn [trace app]. rewrite filter_send_pre.
    repeat split. exact Hsh.
  - destruct (histo_quantized _ _ _ _) as [e|c]; [discriminate|]. intros _.
    eexists. cbn [trace app]. rewrite filter_send_pre.
    cbn [filter is_send]. repeat split; cbn; congruence.
Qed.

(** C9: a tick that returns normally sends exactly one frame of shape
    [(time_bins, polarities, height, width)]; the frame is the unsigned
    8-bit buffer when the binner ran, but on a tick with an empty batch
    it is [np.zeros(shape)], whose element type is not an integer type:
    on the 4 by 4 model a tick without events sends a [Float64] frame. *)
Theorem empty_tick_frame_is_float64 :
  (forall self t_now next_batch,
      Reachable histo_quantized self ->
      let o := PyInivationCameraModel.run_spk histo_quantized t_now
                 next_batch self in
      result o = inr tt ->
      exists frame,
        filter is_send (trace o) = [Call_send frame] /\
        tshape frame = [PyInivationCameraModel.num_output_time_bins self;
                        PyInivationCameraModel.polarities self;
                        PyInivationCameraModel.height self;
                        PyInivationCameraModel.width self] /\
        is_integer_dtype (dtype frame) =
          match after_pipeline (PyInivationCameraModel.transformations self)
                  (received next_batch) with
          | inr [] => false
          | _ => true
          end) /\
  (let self := Fixtures.model None in
   let frame := mkTensor Float64 [1; 2; 4; 4] (repeat 0 32) in
   result (PyInivationCameraModel.init (Fixtures.params None) (0, 0) tt)
   = inr self /\
   PyInivationCameraModel.run_spk histo_quantized 1 None self
   = mkOutcome [Call_getNextEventBatch; Call_send frame]
       (PyInivationCameraModel.set_t_last_iteration 1 self) (inr tt) /\
   is_integer_dtype (dtype frame) = false).
Proof.
  split.
  - intros self t_now next_batch Hr o Ho.
    destruct (tick_emits_one_frame self t_now next_batch Hr Ho)
      as (frame & H1 & H2 & H3).
    exists frame. repeat split; try assumption.
    rewrite H3. now destruct (after_pipeline _ _) as [e|[|a l]].
  - repeat split.
Qed.

(** C10: the pipeline is called for what it does to the array it is
    given.  In the loop and in the dry run the binner receives that
    array as the call left it, whatever the call returned; so for a
    pipeline of transformations that only return their result, the
    binner and the frame see the events as they were before the
    pipeline. *)
Theorem pipeline_return_value_discarded :
  (forall self t_now events_np T inplace returned,
      PyInivationCameraModel.transformations self = Some T ->
      PyInivationCameraModel.t_pause self
      <= PyInivationCameraModel.t_last_iteration self ->
      events_np <> [] ->
      Compose_call T (PyInivationCameraModel.normalize events_np)
      = inr (inplace, returned) ->
      inplace <> [] ->
      filter is_histo_quantized
        (trace (PyInivationCameraModel.run_spk histo_quantized t_now
                  (Some events_np) self))
      = [Call_histo_quantized inplace (PyInivationCameraModel.volume self)
           (PyInivationCameraModel.time_span inplace) (Some true)]) /\
  (forall rng T shape h w inplace returned,
      Compose_call T (InivationCamera.test_data rng h w)
      = inr (inplace, returned) ->
      inplace <> [] ->
      Forall (fun n => 0 <= n) shape ->
      trace (InivationCamera.dry_run histo_quantized rng T shape h w tt)
      = [Call_transformations (InivationCamera.test_data rng h w);
         Call_histo_quantized inplace (zeros shape UInt8)
           (np_max (map ev_t inplace)) None]) /\
  (forall T,
      Forall pure_transformation T ->
      (forall self t_now events_np,
          PyInivationCameraModel.transformations self = Some T ->
          PyInivationCameraModel.t_pause self
          <= PyInivationCameraModel.t_last_iteration self ->
          events_np <> [] ->
          let events := PyInivationCameraModel.normalize events_np in
          let volume := PyInivationCameraModel.volume self in
          let span := PyInivationCameraModel.time_span events in
          let called := Call_histo_quantized events volume span (Some true) in
          PyInivationCameraModel.run_spk histo_quantized t_now
            (Some events_np) self
          = match histo_quantized events volume span (Some true) with
            | inl e =>
                mkOutcome
                  [Call_getNextEventBatch; Call_transformations events; called]
                  self (inl e)
            | inr c =>
                let v := mkTensor (dtype volume) (tshape volume) c in
                mkOutcome
                  [Call_getNextEventBatch; Call_transformations events; called;
                   Call_send v]
                  (PyInivationCameraModel.set_t_last_iteration t_now
                     (PyInivationCameraModel.set_volume v self))
                  (inr tt)
            end) /\
      (forall rng shape h w,
          Forall (fun n => 0 <= n) shape ->
          let batch := InivationCamera.test_data rng h w in
          trace (InivationCamera.dry_run histo_quantized rng T shape h w tt)
          = [Call_transformations batch;
             Call_histo_quantized batch (zeros shape UInt8)
               (np_max (map ev_t batch)) None])).
Proof.
  assert (Hdry : forall rng T shape h w inplace returned,
      Compose_call T (InivationCamera.test_data rng h w)
      = inr (inplace, returned) ->
      inplace <> [] ->
      Forall (fun n => 0 <= n) shape ->
      trace (InivationCamera.dry_run histo_quantized rng T shape h w tt)
      = [Call_transformations (InivationCamera.test_data rng h w);
         Call_histo_quantized inplace (zeros shape UInt8)
           (np_max (map ev_t inplace)) None]).
  { intros rng T shape h w inplace returned Hc Hne Hnn.
    destruct (dry_run_spec histo_quantized rng T shape h w) as [-> _].
    unfold spec_dry_run. rewrite Hc.
    destruct inplace as [|a l]; [contradiction|].
    now rewrite forallb_nonneg. }
  split; [|split].
  - intros self t_now events_np T inplace returned HT Hp Hne Hc Hne'.
    rewrite run_spk_running by assumption. cbv zeta.
    rewrite HT. cbn [received].
    destruct events_np as [|r events_np]; [contradiction|].
    cbn [PyInivationCameraModel.normalize map after_pipeline pipeline_calls].
    cbn [PyInivationCameraModel.normalize map] in Hc. rewrite Hc. cbn [fst].
    destruct inplace as [|a l]; [contradiction|].
    destruct (histo_quantized _ _ _ _); reflexivity.
  - exact Hdry.
  - intros T HT. split.
    + intros self t_now events_np HTs Hp Hne events volume span called.
      subst events volume span called.
      rewrite run_spk_running by assumption. cbv zeta.
      rewrite HTs. cbn [received].
      destruct events_np as [|r events_np]; [contradiction|].
      destruct (Compose_call_pure T
                  (PyInivationCameraModel.normalize (r :: events_np)) HT)
        as [returned Hc].
      cbn [PyInivationCameraModel.normalize map after_pipeline pipeline_calls].
      cbn [PyInivationCameraModel.normalize map] in Hc. rewrite Hc. cbn [fst].
      destruct (histo_quantized _ _ _ _); reflexivity.
    + intros rng shape h w Hnn batch. subst batch.
      destruct (Compose_call_pure T (InivationCamera.test_data rng h w) HT)
        as [returned Hc].
      apply (Hdry rng T shape h w _ returned Hc); [|assumption].
      intros E. pose proof (test_data_length rng h w) as Hl.
      rewrite E in Hl. discriminate.
Qed.

End SinkAndPipelineClaims.

(** ** The binner of the specification *)

Section Binner.

Import HistogramBinner.

Lemma increment_length cells i :
  List.length (increment cells i) = List.length cells.
Proof.
  revert i. induction cells as [|c cells IH]; intros [|i]; simpl; auto.
Qed.

Lemma increment_bounds cells i :
  Forall (fun c => 0 <= c <= 255) cells ->
  Forall (fun c => 0 <= c <= 255) (increment cells i).
Proof.
  intros H. revert i.
  induction H as [|c cells Hc Hl IH]; intros [|i]; simpl; constructor;
    auto; lia.
Qed.

Lemma nth_increment cells i j :
  nth j (increment cells i) 0
  = if (Nat.eqb j i && Nat.ltb i (List.length cells))%bool
    then Z.min 255 (nth i cells 0 + 1)
    else nth j cells 0.
Proof.
  revert i j. induction cells as [|c cells IH]; intros i j.
  - replace (Nat.ltb i (List.length (@nil Z))) with false
      by (symmetry; apply Nat.ltb_ge; simpl; lia).
    rewrite andb_false_r. now destruct i.
  - destruct i as [|i], j as [|j]; try reflexivity.
    simpl increment. simpl nth. rewrite IH. reflexivity.
Qed.

Lemma sum_increment_le cells i :
  sum_cells (increment cells i) <= sum_cells cells + 1.
Proof.
  unfold sum_cells. revert i.
  induction cells as [|c cells IH]; intros [|i]; simpl; try lia.
  specialize (IH i). lia.
Qed.

Lemma sum_increment_exact cells i :
  (i < List.length cells)%nat -> nth i cells 0 < 255 ->
  sum_cells (increment cells i) = sum_cells cells + 1.
Proof.
  unfold sum_cells. revert i.
  induction cells as [|c cells IH]; intros [|i]; simpl; try lia.
  intros Hi Hc. specialize (IH i). lia.
Qed.

Lemma offset_in_buffer shape window p y x i :
  offset shape window p y x = Some i ->
  (i < Z.to_nat (fold_right Z.mul 1%Z shape))%nat.
Proof.
  unfold offset.
  destruct shape as [|B [|P [|H [|W [|z l]]]]]; try discriminate.
  destruct (_ && _) eqn:E; [|discriminate].
  intros Hi. injection Hi as <-.
  repeat (apply andb_prop in E; destruct E as [E ?]).
  repeat match goal with
         | H : (_ <=? _) = true |- _ => apply Z.leb_le in H
         | H : (_ <? _) = true |- _ => apply Z.ltb_lt in H
         end.
  cbn [fold_right].
  assert (K1 : 0 <= window * P + p <= B * P - 1) by nia.
  assert (K2 : 0 <= (window * P + p) * H + y <= B * P * H - 1) by nia.
  assert (K3 : 0 <= ((window * P + p) * H + y) * W + x <= B * P * H * W - 1)
    by nia.
  apply Z2Nat.inj_lt; lia.
Qed.

Lemma accumulate_length shape span events :
  forall cells c,
    accumulate shape span cells events = inr c ->
    List.length c = List.length cells.
Proof.
  induction events as [|e events IH]; intros cells c; simpl.
  - intros H. now injection H as <-.
  - destruct (cell_of shape span e) as [i|]; [|discriminate].
    intros H. apply IH in H. now rewrite increment_length in H.
Qed.

Lemma accumulate_bounds shape span events :
  forall cells c,
    accumulate shape span cells events = inr c ->
    Forall (fun c => 0 <= c <= 255) cells ->
    Forall (fun c => 0 <= c <= 255) c.
Proof.
  induction events as [|e events IH]; intros cells c; simpl.
  - intros H. now injection H as <-.
  - destruct (cell_of shape span e) as [i|]; [|discriminate].
    intros H Hb. eapply IH; eauto using increment_bounds.
Qed.

Lemma accumulate_sum_le shape span events :
  forall cells c,
    accumulate shape span cells events = inr c ->
    sum_cells c <= sum_cells cells + len events.
Proof.
  induction events as [|e events IH]; intros cells c; simpl.
  - intros H. injection H as <-. unfold len. simpl. lia.
  - destruct (cell_of shape span e) as [i|]; [|discriminate].
    intros H. apply IH in H. pose proof (sum_increment_le cells i).
    unfold len in *. simpl List.length. lia.
Qed.

Lemma hits_nonneg shape span i events : 0 <= hits shape span i events.
Proof. unfold hits, len. lia. Qed.

Lemma hits_cons shape span i e events :
  hits shape span i (e :: events)
  = (match cell_of shape span e with
     | Some j => if Nat.eqb j i then 1 else 0
     | None => 0
     end) + hits shape span i events.
Proof.
  unfold hits, len. simpl filter.
  destruct (cell_of shape span e) as [j|]; [|lia].
  destruct (Nat.eqb j i); simpl List.length; lia.
Qed.

Lemma accumulate_cells shape span events :
  forall cells c,
    accumulate shape span cells events = inr c ->
    List.length cells = Z.to_nat (fold_right Z.mul 1 shape) ->
    Forall (fun c => 0 <= c <= 255) cells ->
    forall j, nth j c 0 = Z.min 255 (nth j cells 0 + hits shape span j events).
Proof.
  induction events as [|e events IH]; intros cells c; simpl accumulate.
  - intros H Hl Hb j. injection H as <-.
    assert (0 <= nth j cells 0 <= 255)
      by (apply (nth_Forall (fun c => 0 <= c <= 255)); [assumption | lia]).
    unfold hits, len. simpl. lia.
  - destruct (cell_of shape span e) as [i|] eqn:Ec; [|discriminate].
    intros H Hl Hb j.
    rewrite (IH _ _ H) by
      (rewrite ?increment_length; auto using increment_bounds).
    rewrite hits_cons, Ec, nth_increment.
    pose proof (hits_nonneg shape span j events).
    assert (Hi : (i < List.length cells)%nat)
      by (rewrite Hl; eapply offset_in_buffer; exact Ec).
    apply Nat.ltb_lt in Hi. rewrite Hi, andb_true_r.
    assert (0 <= nth i cells 0 <= 255)
      by (apply (nth_Forall (fun c => 0 <= c <= 255)); [assumption | lia]).
    rewrite (Nat.eqb_sym i j).
    destruct (Nat.eqb_spec j i) as [->|Hji]; lia.
Qed.

Lemma accumulate_sum_exact shape span events :
  forall cells c,
    accumulate shape span cells events = inr c ->
    List.length cells = Z.to_nat (fold_right Z.mul 1 shape) ->
    (forall j, nth j cells 0 + hits shape span j events <= 255) ->
    sum_cells c = sum_cells cells + len events.
Proof.
  induction events as [|e events IH]; intros cells c; simpl accumulate.
  - intros H _ _. injection H as <-. unfold len. simpl. lia.
  - destruct (cell_of shape span e) as [i|] eqn:Ec; [|discriminate].
    intros H Hl Hh.
    assert (Hi : (i < List.length cells)%nat)
      by (rewrite Hl; eapply offset_in_buffer; exact Ec).
    rewrite (IH _ _ H).
    + rewrite sum_increment_exact; [unfold len; simpl List.length; lia | exact Hi |].
      specialize (Hh i). rewrite hits_cons, Ec, Nat.eqb_refl in Hh.
      pose proof (hits_nonneg shape span i events). lia.
    + now rewrite increment_length.
    + intros j. specialize (Hh j). rewrite hits_cons, Ec in Hh.
      rewrite nth_increment.
      apply Nat.ltb_lt in Hi. rewrite Hi, andb_true_r.
      rewrite (Nat.eqb_sym i j) in Hh. revert Hh.
      destruct (Nat.eqb_spec j i) as [E|E]; intros Hh; [subst j|]; lia.
Qed.

End Binner.

Section BinnerInLoop.

Lemma histo_quantized_length xypt output_array span reset c :
  HistogramBinner.histo_quantized xypt output_array span reset = inr c ->
  List.length c = List.length (cells output_array).
Proof.
  unfold HistogramBinner.histo_quantized. intros H.
  apply accumulate_length in H. rewrite H.
  destruct reset as [[|]|]; now rewrite ?length_map.
Qed.

(** With the binner of the specification the buffer always has as many
    cells as its shape says. *)
Lemma Reachable_buffer self :
  Reachable HistogramBinner.histo_quantized self ->
  List.length (cells (PyInivationCameraModel.volume self))
  = Z.to_nat (fold_right Z.mul 1 (PyInivationCameraModel.shape self)).
Proof.
  induction 1 as [pp clock self H | self t_now nb Hr IH | self now _ IH].
  - unfold PyInivationCameraModel.init in H.
    destruct (ProcParams.shape pp) as [|n [|p [|h [|w [|x l]]]]] eqn:Es;
      try discriminate.
    unfold bind, call, ret, lift in H. cbn [result trace final] in H.
    destruct (ProcParams.biases pp); cbn [is_None negb] in H; [discriminate|].
    cbn [ret result trace final] in H.
    destruct (np_zeros [n; p; h; w] UInt8) as [e|v] eqn:Ez; cbn [result] in H;
      [discriminate|].
    injection H as <-. apply np_zeros_inv in Ez. destruct Ez as [-> _].
    cbn [PyInivationCameraModel.volume PyInivationCameraModel.shape].
    unfold zeros. cbn [cells]. apply repeat_length.
  - destruct (Z_gt_le_dec (PyInivationCameraModel.t_pause self)
                (PyInivationCameraModel.t_last_iteration self)) as [Hp|Hp].
    + now rewrite run_spk_paused.
    + rewrite run_spk_running by assumption. cbv zeta.
      destruct (after_pipeline _ _) as [e|[|a events']]; [assumption| |].
      * destruct (np_zeros _ _); exact IH.
      * destruct (HistogramBinner.histo_quantized _ _ _ _) as [e|c] eqn:Eh;
          [assumption|].
        apply histo_quantized_length in Eh. cbn. congruence.
  - exact IH.
Qed.

Lemma zeroed_nth (l : list Z) j : nth j (map (fun _ => 0) l) 0 = 0.
Proof. revert j. induction l; intros [|j]; simpl; auto. Qed.

Lemma zeroed_sum (l : list Z) : sum_cells (map (fun _ => 0) l) = 0.
Proof. unfold sum_cells. induction l; simpl; lia. Qed.

Lemma zeroed_bounds (l : list Z) :
  Forall (fun c => 0 <= c <= 255) (map (fun _ => 0) l).
Proof. induction l; simpl; constructor; auto; lia. Qed.

Lemma of_nat_seq_Sorted a n : Sorted Z.le (map Z.of_nat (seq a n)).
Proof.
  revert a. induction n as [|n IH]; intros a; simpl; constructor.
  - apply IH.
  - destruct n; simpl; constructor. lia.
Qed.

(** C8, as the binner of the specification has it: on a tick with a
    non-empty batch that returns normally, every cell of the frame sent
    is the number of events of the batch on that cell, capped at 255, so
    it lies between 0 and 255; the sum of the cells of the one time bin
    is at most the number of events of the batch, and equals it when no
    cell receives more than 255 events. *)
Theorem frame_counts_saturate self t_now events_np events' :
  Reachable HistogramBinner.histo_quantized self ->
  PyInivationCameraModel.t_pause self
  <= PyInivationCameraModel.t_last_iteration self ->
  events_np <> [] ->
  after_pipeline (PyInivationCameraModel.transformations self)
    (PyInivationCameraModel.normalize events_np) = inr events' ->
  events' <> [] ->
  let o := PyInivationCameraModel.run_spk HistogramBinner.histo_quantized
             t_now (Some events_np) self in
  let count := hits (PyInivationCameraModel.shape self)
                 (PyInivationCameraModel.time_span events') in
  result o = inr tt ->
  exists frame,
    filter is_send (trace o) = [Call_send frame] /\
    Forall (fun c => 0 <= c <= 255) (cells frame) /\
    (forall i, nth i (cells frame) 0 = Z.min 255 (count i events')) /\
    sum_cells (cells frame) <= len events' /\
    ((forall i, count i events' <= 255) ->
     sum_cells (cells frame) = len events').
Proof.
  intros Hr Hp Hne Ha Hne' o count. subst o count.
  pose proof (Reachable_buffer self Hr) as Hlen.
  destruct (Reachable_ok _ _ Hr) as (_ & _ & _ & Hv & _).
  rewrite run_spk_running by assumption. cbv zeta.
  cbn [received]. rewrite Ha.
  destruct events' as [|a events']; [contradiction|].
  set (events := a :: events') in *.
  destruct (HistogramBinner.histo_quantized _ _ _ _) as [e|c] eqn:Eh;
    [discriminate|].
  intros _. eexists. cbn [trace app]. rewrite filter_send_pre.
  split; [reflexivity|]. cbn [cells].
  unfold HistogramBinner.histo_quantized in Eh. rewrite Hv in Eh.
  set (start := map (fun _ => 0) _) in Eh.
  assert (Hl : List.length start
               = Z.to_nat (fold_right Z.mul 1
                             (PyInivationCameraModel.shape self)))
    by (unfold start; now rewrite length_map).
  pose proof (zeroed_bounds (cells (PyInivationCameraModel.volume self)))
    as Hb. fold start in Hb.
  pose proof (zeroed_sum (cells (PyInivationCameraModel.volume self)))
    as Hs. fold start in Hs.
  split; [eapply accumulate_bounds; eauto|].
  split; [|split].
  - intros i. rewrite (accumulate_cells _ _ _ _ _ Eh Hl Hb).
    unfold start. now rewrite zeroed_nth.
  - pose proof (accumulate_sum_le _ _ _ _ _ Eh). lia.
  - intros Hc. rewrite (accumulate_sum_exact _ _ _ _ _ Eh Hl); [lia|].
    intros j. unfold start. rewrite zeroed_nth. apply Hc.
Qed.

End BinnerInLoop.

(** C8 as stated fails on a saturated cell: 256 events with ascending
    timestamps on one pixel give a frame whose cells sum to 255. *)
Lemma hot_pixel_sum_below_count :
  let events := received (Some hot_pixel) in
  let o := PyInivationCameraModel.run_spk HistogramBinner.histo_quantized 1
             (Some hot_pixel) (Fixtures.model None) in
  Sorted Z.le (map ev_t events) /\
  len events = 256 /\
  result o = inr tt /\
  exists frame,
    filter is_send (trace o) = [Call_send frame] /\
    sum_cells (cells frame) = 255 /\
    sum_cells (cells frame) <> len events.
Proof.
  cbv zeta. split; [|split; [|split]].
  - change (map ev_t (received (Some hot_pixel)))
      with (map Z.of_nat (seq 0 256)).
    apply of_nat_seq_Sorted.
  - reflexivity.
  - vm_compute. reflexivity.
  - eexists. split; [vm_compute; reflexivity|].
    split; vm_compute; [reflexivity | discriminate].
Qed.

(** ** Witnesses on the 4 by 4 model *)


(** Witness of C6: the model after a pause at clock reading 5. *)
Lemma pause_not_implemented_witness :
  let self := final (PyInivationCameraModel._pause 5 (Fixtures.model None)) in
  let o := PyInivationCameraModel.run_spk HistogramBinner.histo_quantized 7
             (Some Fixtures.three_events) self in
  PyInivationCameraModel.t_pause self
  > PyInivationCameraModel.t_last_iteration self /\
  result o = inl (Raise NotImplementedError pausing_message) /\
  trace o = [] /\
  final o = self.
Proof.
  assert (Hp : PyInivationCameraModel.t_pause
                 (final (PyInivationCameraModel._pause 5 (Fixtures.model None)))
               > PyInivationCameraModel.t_last_iteration
                   (final (PyInivationCameraModel._pause 5
                             (Fixtures.model None))))
    by (simpl; lia).
  pose proof (pause_not_implemented HistogramBinner.histo_quantized
                (final (PyInivationCameraModel._pause 5 (Fixtures.model None)))
                7 (Some Fixtures.three_events) Hp) as H.
  cbv zeta in H. destruct H as (H1 & H2 & H3 & _).
  cbv zeta. split; [exact Hp | split; [exact H1 | split; [exact H2 | exact H3]]].
Defined.


(** Witness of C8: the same scenario; three events, cells summing to 3. *)
Lemma frame_counts_saturate_witness :
  let o := PyInivationCameraModel.run_spk HistogramBinner.histo_quantized 1
             (Some Fixtures.three_events) (Fixtures.model None) in
  result o = inr tt /\
  exists frame,
    filter is_send (trace o) = [Call_send frame] /\
    Forall (fun c => 0 <= c <= 255) (cells frame) /\
    sum_cells (cells frame) <= 3.
Proof.
  assert (Hres : result (PyInivationCameraModel.run_spk
                           HistogramBinner.histo_quantized 1
                           (Some Fixtures.three_events) (Fixtures.model None))
                 = inr tt) by reflexivity.
  pose proof (frame_counts_saturate (Fixtures.model None) 1
                Fixtures.three_events
                (PyInivationCameraModel.normalize Fixtures.three_events)
                (Reachable_model _ None)
                ltac:(simpl; lia)
                ltac:(discriminate)
                eq_refl
                ltac:(discriminate)
                Hres) as H.
  cbv zeta. split; [exact Hres|].
  destruct H as (frame & H1 & H2 & _ & H4 & _).
  exists frame. split; [exact H1 | split; [exact H2 | exact H4]].
Defined.

(** Witness of C10: the halving pipeline returns its result and leaves
    its argument alone, so the three events are binned where they
    were. *)
Lemma pipeline_return_value_discarded_witness :
  let self := Fixtures.model (Some [Fixtures.downsample]) in
  let events := PyInivationCameraModel.normalize Fixtures.three_events in
  filter is_histo_quantized
    (trace (PyInivationCameraModel.run_spk HistogramBinner.histo_quantized 1
              (Some Fixtures.three_events) self))
  = [Call_histo_quantized events (PyInivationCameraModel.volume self)
       (PyInivationCameraModel.time_span events) (Some true)].
Proof.
  exact (proj1 (pipeline_return_value_discarded
                  HistogramBinner.histo_quantized)
           (Fixtures.model (Some [Fixtures.downsample])) 1
           Fixtures.three_events [Fixtures.downsample]
           (PyInivationCameraModel.normalize Fixtures.three_events)
           (map (fun e => mkEvent (ev_y e / 2) (ev_x e / 2) (ev_p e) (ev_t e))
              (PyInivationCameraModel.normalize Fixtures.three_events))
           eq_refl
           ltac:(simpl; lia)
           ltac:(discriminate)
           eq_refl
           ltac:(discriminate)).
Defined.

(** * Further properties *)

(** ** Building the process model *)

Section ModelInit.

(** [__init__] of the process model, case by case. *)
Lemma model_init_cases proc_params clock :
  PyInivationCameraModel.init proc_params clock tt
  = match ProcParams.shape proc_params with
    | [n; p; h; w] =>
        match ProcParams.biases proc_params with
        | Some _ =>
            mkOutcome [Call_CameraCapture] tt
              (inl (Raise NotImplementedError biases_not_implemented_message))
        | None =>
            match np_zeros [n; p; h; w] UInt8 with
            | inl e => mkOutcome [Call_CameraCapture] tt (inl e)
            | inr volume =>
                mkOutcome [Call_CameraCapture] tt
                  (inr (PyInivationCameraModel.mk [n; p; h; w] n p h w
                          (ProcParams.device proc_params) None
                          (ProcParams.transformations proc_params)
                          volume (fst clock) (snd clock) [n; p; h; w]))
            end
        end
    | _ =>
        mkOutcome [] tt
          (inl (Raise ValueError "wrong number of values to unpack"))
    end.
Proof.
  unfold PyInivationCameraModel.init.
  destruct (ProcParams.shape proc_params) as [|n [|p [|h [|w [|x l]]]]];
    try reflexivity.
  unfold bind, call, ret, lift, raise. cbn [result trace final app].
  destruct (ProcParams.biases proc_params); cbn [is_None negb result trace final app];
    [reflexivity|].
  destruct (np_zeros [n; p; h; w] UInt8); reflexivity.
Qed.

Lemma nonneg4 n p h w :
  Forall (fun z => 0 <= z) [n; p; h; w]
  <-> 0 <= n /\ 0 <= p /\ 0 <= h /\ 0 <= w.
Proof.
  split.
  - intros H. inversion_clear H as [|? ? Hn H1]. inversion_clear H1 as [|? ? Hp H2].
    inversion_clear H2 as [|? ? Hh H3]. inversion_clear H3 as [|? ? Hw _].
    auto.
  - intros (Hn & Hp & Hh & Hw). repeat constructor; assumption.
Qed.


(** X2: a model that was built opened the camera once, holds a zeroed
    unsigned 8-bit buffer of the shape, has the shape as its port shape,
    and keeps the two clock readings as pause time and last iteration
    time. *)
Theorem model_init_state proc_params clock self :
  result (PyInivationCameraModel.init proc_params clock tt) = inr self ->
  trace (PyInivationCameraModel.init proc_params clock tt)
  = [Call_CameraCapture] /\
  PyInivationCameraModel.volume self
  = zeros (ProcParams.shape proc_params) UInt8 /\
  Forall (fun c => c = 0) (cells (PyInivationCameraModel.volume self)) /\
  PyInivationCameraModel.shape self = ProcParams.shape proc_params /\
  PyInivationCameraModel.s_out self = ProcParams.shape proc_params /\
  PyInivationCameraModel.transformations self
  = ProcParams.transformations proc_params /\
  PyInivationCameraModel.t_pause self = fst clock /\
  PyInivationCameraModel.t_last_iteration self = snd clock.
Proof.
  rewrite model_init_cases.
  destruct (ProcParams.shape proc_params) as [|n [|p [|h [|w [|x l]]]]];
    try discriminate.
  destruct (ProcParams.biases proc_params); [discriminate|].
  destruct (np_zeros [n; p; h; w] UInt8) as [e|v] eqn:Ez; [discriminate|].
  cbn [result trace]. intros H. injection H as <-.
  apply np_zeros_inv in Ez. destruct Ez as [-> _]. cbn.
  repeat split. apply (zeros_all_zero [n; p; h; w] UInt8).
Qed.

(** X3: with a bias mapping the model is never built.  When the shape
    has four dimensions the camera is opened first and the fault is the
    not-implemented one; otherwise unpacking the shape fails before the
    camera is opened. *)
Theorem model_init_biases proc_params clock b :
  ProcParams.biases proc_params = Some b ->
  let o := PyInivationCameraModel.init proc_params clock tt in
  (exists e, result o = inl e) /\
  (List.length (ProcParams.shape proc_params) = 4%nat ->
   o = mkOutcome [Call_CameraCapture] tt
         (inl (Raise NotImplementedError biases_not_implemented_message))) /\
  (List.length (ProcParams.shape proc_params) <> 4%nat ->
   trace o = [] /\ exists msg, result o = inl (Raise ValueError msg)).
Proof.
  intros Hb o. subst o. rewrite model_init_cases, Hb.
  destruct (ProcParams.shape proc_params) as [|n [|p [|h [|w [|x l]]]]];
    cbn [List.length result trace];
    (split; [eexists; reflexivity|]);
    (split; [intros Hl; try discriminate; reflexivity|]);
    intros Hl; try (now contradiction Hl);
    (split; [reflexivity | eexists; reflexivity]).
Qed.

End ModelInit.

Section ProcessToModel.

Variable histo_quantized : Binner.
Variable rng : RandomSource.

(** X4: biases can never be used.  A construction with a bias mapping
    that succeeds had the empty device string, and building the process
    model from its parameters always raises. *)
Theorem constructed_biases_never_run h w device b T n out_shape proc :
  result (InivationCamera.init histo_quantized rng (h, w) device (Some b) T n
            out_shape tt) = inr proc ->
  device = ""%string /\
  forall clock,
    exists e,
      result (PyInivationCameraModel.init (InivationCamera.proc_params proc)
                clock tt) = inl e.
Proof.
  intros H.
  assert (Hd : device = ""%string).
  { destruct (string_dec device "") as [Hd|Hd]; [exact Hd|].
    destruct (Z_lt_le_dec n 0) as [Hn|Hn];
      [|destruct (Z_lt_le_dec 1 n) as [Hn'|Hn']].
    1,2: rewrite init_bins_rejected in H by lia; discriminate.
    rewrite init_biases_rejected in H by (assumption || lia). discriminate. }
  split; [exact Hd|].
  apply init_success in H. subst proc. intros clock.
  rewrite model_init_cases. cbn.
  destruct (spec_output_shape h w T n out_shape)
    as [|n' [|p' [|h' [|w' [|x l]]]]]; eexists; reflexivity.
Qed.


End ProcessToModel.

(** Witness of X2: the 4 by 4 model. *)
Lemma model_init_state_witness :
  result (PyInivationCameraModel.init (Fixtures.params None) (3, 4) tt)
  = inr (PyInivationCameraModel.set_t_last_iteration 4
           (PyInivationCameraModel.set_t_pause 3 (Fixtures.model None))) /\
  PyInivationCameraModel.t_pause
    (PyInivationCameraModel.set_t_last_iteration 4
       (PyInivationCameraModel.set_t_pause 3 (Fixtures.model None))) = 3.
Proof.
  assert (H : result (PyInivationCameraModel.init (Fixtures.params None)
                        (3, 4) tt)
              = inr (PyInivationCameraModel.set_t_last_iteration 4
                       (PyInivationCameraModel.set_t_pause 3
                          (Fixtures.model None)))) by reflexivity.
  split; [exact H|].
  pose proof (model_init_state (Fixtures.params None) (3, 4) _ H) as K.
  destruct K as (_ & _ & _ & _ & _ & _ & K & _). exact K.
Defined.

(** Witness of X3: the 4 by 4 parameters with an empty bias mapping. *)
Lemma model_init_biases_witness :
  PyInivationCameraModel.init (ProcParams.mk [1; 2; 4; 4] (Some []) "" None 1)
    (0, 0) tt
  = mkOutcome [Call_CameraCapture] tt
      (inl (Raise NotImplementedError biases_not_implemented_message)).
Proof.
  exact (proj1 (proj2 (model_init_biases
                         (ProcParams.mk [1; 2; 4; 4] (Some []) "" None 1)
                         (0, 0) [] eq_refl))
           eq_refl).
Defined.

(** Witness of X4: a live camera constructed with an empty bias
    mapping. *)
Lemma constructed_biases_never_run_witness :
  result (InivationCamera.init HistogramBinner.histo_quantized Fixtures.half
            (4, 4) "" (Some []) None 1 None tt)
  = inr (constructed "" (Some []) None 1 [1; 2; 4; 4]) /\
  exists e,
    result (PyInivationCameraModel.init
              (InivationCamera.proc_params
                 (constructed "" (Some []) None 1 [1; 2; 4; 4]))
              (0, 0) tt) = inl e.
Proof.
  assert (H : result (InivationCamera.init HistogramBinner.histo_quantized
                        Fixtures.half (4, 4) "" (Some []) None 1 None tt)
              = inr (constructed "" (Some []) None 1 [1; 2; 4; 4]))
    by reflexivity.
  split; [exact H|].
  exact (proj2 (constructed_biases_never_run HistogramBinner.histo_quantized
                  Fixtures.half 4 4 "" [] None 1 None _ H) (0, 0)).
Defined.


(** ** Ticks and pauses *)

(** The cases of a tick: paused; pipeline raised; empty batch with or
    without a frame; binner raised or returned. *)
Ltac tick_cases hq self :=
  let Hp := fresh "Hp" in
  destruct (Z_gt_le_dec (PyInivationCameraModel.t_pause self)
              (PyInivationCameraModel.t_last_iteration self)) as [Hp|Hp];
  [ rewrite !(run_spk_paused hq self) by assumption
  | rewrite !(run_spk_running hq self) by assumption; cbv zeta;
    destruct (after_pipeline _ _) as [?e|[|?a ?events']];
    [ | destruct (np_zeros _ _) | destruct (hq _ _ _ _) ] ].

Section Ticks.

Variable histo_quantized : Binner.

Lemma model_init_clock proc_params clock self :
  result (PyInivationCameraModel.init proc_params clock tt) = inr self ->
  PyInivationCameraModel.t_pause self = fst clock /\
  PyInivationCameraModel.t_last_iteration self = snd clock.
Proof.
  rewrite model_init_cases.
  destruct (ProcParams.shape proc_params) as [|n [|p [|h [|w [|x l]]]]];
    try discriminate.
  destruct (ProcParams.biases proc_params); [discriminate|].
  destruct (np_zeros [n; p; h; w] UInt8); [discriminate|].
  cbn [result]. intros H. injection H as <-. split; reflexivity.
Qed.

Lemma filter_poll_pre T events l :
  filter is_poll (Call_getNextEventBatch :: pipeline_calls T events ++ l)
  = Call_getNextEventBatch :: filter is_poll l.
Proof. destruct T, events; reflexivity. Qed.

Lemma filter_CameraCapture_pre T events l :
  filter is_CameraCapture
    (Call_getNextEventBatch :: pipeline_calls T events ++ l)
  = filter is_CameraCapture l.
Proof. destruct T, events; reflexivity. Qed.

Lemma filter_pre_nil T events :
  filter is_send (Call_getNextEventBatch :: pipeline_calls T events) = [] /\
  filter is_histo_quantized
    (Call_getNextEventBatch :: pipeline_calls T events) = [] /\
  filter is_CameraCapture
    (Call_getNextEventBatch :: pipeline_calls T events) = [] /\
  filter is_poll (Call_getNextEventBatch :: pipeline_calls T events)
  = [Call_getNextEventBatch].
Proof. destruct T, events; repeat split. Qed.

Lemma tick_time_cases_aux self t_now next_batch :
  let o := PyInivationCameraModel.run_spk histo_quantized t_now next_batch
             self in
  PyInivationCameraModel.t_pause (final o)
  = PyInivationCameraModel.t_pause self /\
  PyInivationCameraModel.t_last_iteration (final o)
  = match result o with
    | inr _ => t_now
    | inl _ => PyInivationCameraModel.t_last_iteration self
    end.
Proof.
  cbv zeta. tick_cases histo_quantized self; split; reflexivity.
Qed.

(** X6: the first tick of a model polls the camera when the two clock
    readings of [__init__] were in order; when the clock stepped back
    between them, the first tick takes the model for paused and raises
    without calling anything. *)
Theorem first_tick_after_init proc_params clock self t_now next_batch :
  result (PyInivationCameraModel.init proc_params clock tt) = inr self ->
  let o := PyInivationCameraModel.run_spk histo_quantized t_now next_batch
             self in
  (fst clock <= snd clock ->
   exists calls, trace o = Call_getNextEventBatch :: calls) /\
  (fst clock > snd clock ->
   o = mkOutcome [] self (inl (Raise NotImplementedError pausing_message))).
Proof.
  intros H o. subst o. apply model_init_clock in H. destruct H as [H1 H2].
  split; intros Hc.
  - rewrite run_spk_running by lia. cbv zeta.
    destruct (after_pipeline _ _) as [e|[|a events']];
      [ | destruct (np_zeros _ _) | destruct (histo_quantized _ _ _ _) ];
      cbn [trace app]; eexists; reflexivity.
  - rewrite run_spk_paused by lia. reflexivity.
Qed.

(** X7: a tick never changes the pause time; it sets the last iteration
    time to the clock reading when it returns normally and leaves it as
    it was when it raises. *)
Theorem tick_time_update self t_now next_batch :
  let o := PyInivationCameraModel.run_spk histo_quantized t_now next_batch
             self in
  PyInivationCameraModel.t_pause (final o)
  = PyInivationCameraModel.t_pause self /\
  PyInivationCameraModel.t_last_iteration (final o)
  = match result o with
    | inr _ => t_now
    | inl _ => PyInivationCameraModel.t_last_iteration self
    end.
Proof.
  cbv zeta. tick_cases histo_quantized self; split; reflexivity.
Qed.

(** X8: a tick leaves the configuration of the model alone: shape and
    its four dimensions, device, biases, pipeline and port shape; the
    buffer keeps its shape and element type. *)
Theorem tick_keeps_configuration self t_now next_batch :
  let self' := final (PyInivationCameraModel.run_spk histo_quantized t_now
                        next_batch self) in
  PyInivationCameraModel.shape self' = PyInivationCameraModel.shape self /\
  PyInivationCameraModel.num_output_time_bins self'
  = PyInivationCameraModel.num_output_time_bins self /\
  PyInivationCameraModel.polarities self'
  = PyInivationCameraModel.polarities self /\
  PyInivationCameraModel.height self' = PyInivationCameraModel.height self /\
  PyInivationCameraModel.width self' = PyInivationCameraModel.width self /\
  PyInivationCameraModel.device self' = PyInivationCameraModel.device self /\
  PyInivationCameraModel.biases self' = PyInivationCameraModel.biases self /\
  PyInivationCameraModel.transformations self'
  = PyInivationCameraModel.transformations self /\
  PyInivationCameraModel.s_out self' = PyInivationCameraModel.s_out self /\
  tshape (PyInivationCameraModel.volume self')
  = tshape (PyInivationCameraModel.volume self) /\
  dtype (PyInivationCameraModel.volume self')
  = dtype (PyInivationCameraModel.volume self).
Proof.
  cbv zeta. tick_cases histo_quantized self; repeat split.
Qed.

(** X9: once the pause time is later than the last iteration time the
    model stays that way: a tick raises, sends nothing and changes
    nothing, and a further pause at a clock reading not earlier than the
    pause time keeps the pause time later than the last iteration. *)
Theorem paused_stays_paused self :
  PyInivationCameraModel.t_pause self
  > PyInivationCameraModel.t_last_iteration self ->
  (forall t_now next_batch,
      let o := PyInivationCameraModel.run_spk histo_quantized t_now
                 next_batch self in
      PyInivationCameraModel.t_pause (final o)
      > PyInivationCameraModel.t_last_iteration (final o) /\
      filter is_send (trace o) = [] /\
      exists e, result o = inl e) /\
  (forall now,
      now >= PyInivationCameraModel.t_pause self ->
      let self' := final (PyInivationCameraModel._pause now self) in
      PyInivationCameraModel.t_pause self'
      > PyInivationCameraModel.t_last_iteration self').
Proof.
  intros Hp. split.
  - intros t_now next_batch o. subst o.
    rewrite run_spk_paused by assumption. cbn [final trace result filter].
    split; [assumption | split; [reflexivity | eexists; reflexivity]].
  - intros now Hn. cbn. lia.
Qed.

(** X10: the clock readings are trusted.  If a tick returns normally at
    a clock reading earlier than the pause time, the next tick takes the
    model for paused and raises without polling the camera. *)
Theorem clock_step_back_looks_like_pause self t_now next_batch t_next batch' :
  PyInivationCameraModel.t_pause self
  <= PyInivationCameraModel.t_last_iteration self ->
  let o := PyInivationCameraModel.run_spk histo_quantized t_now next_batch
             self in
  result o = inr tt ->
  t_now < PyInivationCameraModel.t_pause self ->
  PyInivationCameraModel.run_spk histo_quantized t_next batch' (final o)
  = mkOutcome [] (final o) (inl (Raise NotImplementedError pausing_message)).
Proof.
  intros Hp o Hr Ht.
  assert (H := tick_time_cases_aux self t_now next_batch).
  apply run_spk_paused. fold o in H. destruct H as [H1 H2].
  rewrite H1, H2, Hr. lia.
Qed.

End Ticks.

Section TickCalls.

Variable histo_quantized : Binner.

(** X11: without a pause the pause fault does not occur: when the pause
    time is not later than the last iteration time and the clock reading
    of a tick is not earlier than the pause time, the same holds after
    the tick, whether it returned or raised. *)
Theorem unpaused_stays_unpaused self t_now next_batch :
  PyInivationCameraModel.t_pause self
  <= PyInivationCameraModel.t_last_iteration self ->
  PyInivationCameraModel.t_pause self <= t_now ->
  let o := PyInivationCameraModel.run_spk histo_quantized t_now next_batch
             self in
  PyInivationCameraModel.t_pause (final o)
  <= PyInivationCameraModel.t_last_iteration (final o).
Proof.
  intros Hp Ht o.
  destruct (tick_time_cases_aux histo_quantized self t_now next_batch)
    as [H1 H2].
  fold o in H1, H2. rewrite H1, H2. destruct (result o); lia.
Qed.

(** X12: the clock reading of a tick decides nothing but the last
    iteration time it stores: the elapsed time computed from it is not
    used, so two ticks that differ in the clock reading make the same
    calls, give the same result and leave the same model up to that
    field. *)
Theorem tick_ignores_elapsed_time self t1 t2 next_batch :
  let o1 := PyInivationCameraModel.run_spk histo_quantized t1 next_batch
              self in
  let o2 := PyInivationCameraModel.run_spk histo_quantized t2 next_batch
              self in
  trace o1 = trace o2 /\
  result o1 = result o2 /\
  PyInivationCameraModel.set_t_last_iteration 0 (final o1)
  = PyInivationCameraModel.set_t_last_iteration 0 (final o2).
Proof.
  cbv zeta. tick_cases histo_quantized self; repeat split.
Qed.

(** X13: a tick that raises has sent no frame. *)
Theorem failing_tick_sends_nothing self t_now next_batch e :
  let o := PyInivationCameraModel.run_spk histo_quantized t_now next_batch
             self in
  result o = inl e ->
  filter is_send (trace o) = [].
Proof.
  cbv zeta. tick_cases histo_quantized self; cbn [result trace app];
    intros H; try discriminate;
    rewrite ?filter_send_pre, ?(proj1 (filter_pre_nil _ _)); reflexivity.
Qed.


(** X15: a tick polls the camera exactly once, as its first call,
    unless it finds the model paused, and then it calls nothing; it
    never opens the camera and calls the binner at most once. *)
Theorem tick_polls_once self t_now next_batch :
  let o := PyInivationCameraModel.run_spk histo_quantized t_now next_batch
             self in
  (if PyInivationCameraModel.t_pause self
      >? PyInivationCameraModel.t_last_iteration self
   then trace o = []
   else hd_error (trace o) = Some Call_getNextEventBatch /\
        filter is_poll (trace o) = [Call_getNextEventBatch]) /\
  filter is_CameraCapture (trace o) = [] /\
  (List.length (filter is_histo_quantized (trace o)) <= 1)%nat.
Proof.
  cbv zeta. rewrite Z.gtb_ltb.
  tick_cases histo_quantized self.
  1: replace (_ <? _) with true by (symmetry; apply Z.ltb_lt; lia).
  2-6: replace (_ <? _) with false by (symmetry; apply Z.ltb_ge; lia).
  all: cbn [trace app hd_error];
    rewrite ?filter_poll_pre, ?filter_CameraCapture_pre,
      ?filter_histo_quantized_pre;
    try (destruct (filter_pre_nil
                     (PyInivationCameraModel.transformations self)
                     (received next_batch)) as (_ & -> & -> & ->));
    repeat split; cbn; lia.
Qed.

End TickCalls.

Section TickBuffer.

Variable histo_quantized : Binner.

(** X16: whenever a tick calls the binner, it calls it on the batch as
    the pipeline step left it, which is not empty, with the buffer of
    the model, the span between the last and first timestamp of that
    batch, and [reset=True]. *)
Theorem binner_call_arguments self t_now next_batch xypt v span r :
  In (Call_histo_quantized xypt v span r)
     (trace (PyInivationCameraModel.run_spk histo_quantized t_now next_batch
               self)) ->
  after_pipeline (PyInivationCameraModel.transformations self)
    (received next_batch) = inr xypt /\
  xypt <> [] /\
  v = PyInivationCameraModel.volume self /\
  span = PyInivationCameraModel.time_span xypt /\
  r = Some true.
Proof.
  intros H.
  assert (Hf : In (Call_histo_quantized xypt v span r)
                 (filter is_histo_quantized
                    (trace (PyInivationCameraModel.run_spk histo_quantized
                              t_now next_batch self))))
    by (apply filter_In; split; [exact H | reflexivity]).
  clear H. revert Hf.
  tick_cases histo_quantized self; cbn [trace app];
    rewrite ?filter_histo_quantized_pre,
      ?(proj1 (proj2 (filter_pre_nil _ _)));
    cbn [filter is_histo_quantized]; intros Hf;
    try (now destruct Hf).
  all: destruct Hf as [Hf|[]]; injection Hf as <- <- <- <-;
    repeat split; discriminate.
Qed.

(** X17: the frame of a tick that ran the binner is the buffer of the
    model itself, as the model holds it afterwards; a tick with an empty
    batch leaves the buffer as it was, counts of the previous tick
    included. *)
Theorem buffer_after_tick self t_now next_batch :
  let o := PyInivationCameraModel.run_spk histo_quantized t_now next_batch
             self in
  result o = inr tt ->
  match after_pipeline (PyInivationCameraModel.transformations self)
          (received next_batch) with
  | inr [] =>
      PyInivationCameraModel.volume (final o)
      = PyInivationCameraModel.volume self
  | _ =>
      filter is_send (trace o)
      = [Call_send (PyInivationCameraModel.volume (final o))]
  end.
Proof.
  cbv zeta. tick_cases histo_quantized self; cbn [result trace final app];
    intros H; try discriminate.
  - reflexivity.
  - now rewrite filter_send_pre.
Qed.

End TickBuffer.

(** ** Time spans *)

Section TimeSpan.

Lemma wrap_int64_range z : - 2 ^ 63 <= wrap_int64 z < 2 ^ 63.
Proof.
  unfold wrap_int64.
  pose proof (Z.mod_pos_bound (z + 2 ^ 63) (2 ^ 64) ltac:(lia)). lia.
Qed.

Lemma Sorted_hd_le_last (l : list Z) :
  Sorted Z.le l -> hd 0 l <= last l 0.
Proof.
  intros H. apply Sorted_StronglySorted in H;
    [|intros x y z; apply Z.le_trans].
  destruct l as [|a l]; [simpl; lia|].
  apply StronglySorted_inv in H. destruct H as [_ H].
  cbn [hd]. destruct l as [|b l]; [simpl; lia|].
  assert (Hin : In (last (a :: b :: l) 0) (b :: l)).
  { change (last (a :: b :: l) 0) with (last (b :: l) 0).
    destruct (exists_last (l := b :: l) ltac:(discriminate)) as (l' & x & E).
    rewrite E, last_last. apply in_or_app. right. now left. }
  revert Hin. generalize (last (a :: b :: l) 0). now apply Forall_forall.
Qed.

(** X18: the span handed to the binner is a 64-bit integer whatever the
    timestamps are, and it is 0 for a batch of a single event. *)
Theorem time_span_range_and_single :
  (forall events,
      - 2 ^ 63 <= PyInivationCameraModel.time_span events < 2 ^ 63) /\
  (forall e, PyInivationCameraModel.time_span [e] = 0).
Proof.
  split.
  - intros events. apply wrap_int64_range.
  - intros e. unfold PyInivationCameraModel.time_span, sub_int64.
    cbn [map last hd]. now rewrite Z.sub_diag.
Qed.

(** X19: on a non-empty batch whose timestamps are ascending
    non-negative 64-bit integers the span is the difference of the last
    and the first timestamp and is not negative. *)
Theorem time_span_sorted events :
  events <> [] ->
  Sorted Z.le (map ev_t events) ->
  Forall (fun e => 0 <= ev_t e < 2 ^ 63) events ->
  PyInivationCameraModel.time_span events
  = last (map ev_t events) 0 - hd 0 (map ev_t events) /\
  0 <= PyInivationCameraModel.time_span events.
Proof.
  intros Hne Hs Hr. rewrite time_span_exact by assumption.
  split; [reflexivity|]. apply Sorted_hd_le_last in Hs. lia.
Qed.

End TimeSpan.

(** Witness of X19: the three events of the scenario span 10. *)
Lemma time_span_sorted_witness :
  PyInivationCameraModel.time_span
    (PyInivationCameraModel.normalize Fixtures.three_events)
  = 10 - 0 /\
  0 <= PyInivationCameraModel.time_span
         (PyInivationCameraModel.normalize Fixtures.three_events).
Proof.
  apply (time_span_sorted
           (PyInivationCameraModel.normalize Fixtures.three_events)).
  - discriminate.
  - simpl. repeat constructor; lia.
  - unfold Fixtures.three_events.
    cbn [PyInivationCameraModel.normalize map].
    repeat (apply Forall_cons; [cbn; lia|]). apply Forall_nil.
Defined.

(** ** More on the dry run *)

Section DryRunMore.

Variable histo_quantized : Binner.
Variable rng : RandomSource.







Lemma init_checked_trace h w device biases T' n out_shape :
  0 <= n <= 1 -> biases = None \/ device = ""%string ->
  trace (InivationCamera.init histo_quantized rng (h, w) device biases
           (Some T') n out_shape tt)
  = fst (spec_dry_run histo_quantized T'
           (spec_output_shape h w (Some T') n out_shape)
           (InivationCamera.test_data rng h w)).
Proof.
  intros Hn Hb. rewrite init_checked by assumption. cbv zeta.
  destruct (dry_run_spec histo_quantized rng T'
              (spec_output_shape h w (Some T') n out_shape) h w) as [Htr _].
  destruct (result (InivationCamera.dry_run _ _ _ _ _ _ _)); exact Htr.
Qed.

(** X21: a construction never polls or opens the camera and never sends
    a frame; it calls the binner at most once; and it calls nothing at
    all when there is no pipeline or when one of the two argument checks
    rejects the arguments. *)
Theorem construction_calls h w device biases T n out_shape :
  let calls := trace (InivationCamera.init histo_quantized rng (h, w) device
                        biases T n out_shape tt) in
  filter is_send calls = [] /\
  filter is_poll calls = [] /\
  filter is_CameraCapture calls = [] /\
  (List.length (filter is_histo_quantized calls) <= 1)%nat /\
  (T = None -> calls = []) /\
  (n < 0 \/ 1 < n \/ (biases <> None /\ device <> ""%string) -> calls = []).
Proof.
  intros calls. subst calls.
  destruct (Z_lt_le_dec n 0) as [Hn|Hn];
    [|destruct (Z_lt_le_dec 1 n) as [Hn'|Hn']].
  1,2: rewrite init_bins_rejected by lia; cbn; repeat split; lia.
  destruct biases as [b|]; [destruct (string_dec device "") as [Hd|Hd]|].
  2: rewrite init_biases_rejected by (assumption || lia);
     cbn; repeat split; lia.
  all: destruct T as [T'|];
    [ rewrite init_checked_trace by (auto || lia); unfold spec_dry_run;
      destruct (Compose_call T' _) as [e|[[|a l] r]];
      [ | | destruct (forallb _ _)]
    | rewrite init_checked by (auto || lia) ];
    cbn [fst trace filter is_send is_poll is_CameraCapture
           is_histo_quantized List.length];
    repeat split; try lia; try discriminate;
    intros [?|[?|[? ?]]]; try lia; congruence.
Qed.

(** X22: the dry run catches an explicit output shape with a negative
    dimension.  With a pipeline of transformations that do not write in
    place, construction fails with the dry-run exception after the one
    pipeline call, without calling the binner. *)
Theorem dry_run_rejects_negative_shape h w device biases T n s :
  0 <= n <= 1 ->
  biases = None \/ device = ""%string ->
  Forall pure_transformation T ->
  ~ Forall (fun z => 0 <= z) s ->
  InivationCamera.init histo_quantized rng (h, w) device biases (Some T) n
    (Some s) tt
  = mkOutcome [Call_transformations (InivationCamera.test_data rng h w)] tt
      (inl (Raise Exception InivationCamera.dry_run_message)).
Proof.
  intros Hn Hb HT Hs. rewrite init_checked by assumption. cbv zeta.
  cbn [spec_output_shape].
  pose proof (dry_run_spec histo_quantized rng T s h w) as Hd.
  cbv zeta in Hd. destruct Hd as [Htr Hres].
  destruct (Compose_call_pure T (InivationCamera.test_data rng h w) HT)
    as [returned Hc].
  unfold spec_dry_run in Htr, Hres. rewrite Hc in Htr, Hres.
  destruct (InivationCamera.test_data rng h w) as [|a l] eqn:Etd.
  { pose proof (test_data_length rng h w) as Hl. rewrite Etd in Hl.
    discriminate. }
  destruct (forallb (fun n0 => 0 <=? n0) s) eqn:Ef.
  { exfalso. apply Hs. apply Forall_forall. intros z Hz. apply Z.leb_le.
    revert z Hz. now apply forallb_forall. }
  cbn [fst snd] in Htr, Hres.
  destruct (result (InivationCamera.dry_run _ _ _ _ _ _ _)) as [e|u];
    [|contradiction].
  now rewrite Htr.
Qed.

End DryRunMore.

(** ** Witnesses of the further properties *)

(** Witness of X6: the 4 by 4 model built at clock readings 3 and 4. *)
Lemma first_tick_after_init_witness :
  exists calls,
    trace (PyInivationCameraModel.run_spk HistogramBinner.histo_quantized 5
             None
             (PyInivationCameraModel.set_t_last_iteration 4
                (PyInivationCameraModel.set_t_pause 3 (Fixtures.model None))))
    = Call_getNextEventBatch :: calls.
Proof.
  exact (proj1 (first_tick_after_init HistogramBinner.histo_quantized
                  (Fixtures.params None) (3, 4) _ 5 None eq_refl)
           ltac:(simpl; lia)).
Defined.

(** Witness of X9: the model paused at clock reading 5, paused again
    at 9. *)
Lemma paused_stays_paused_witness :
  let self := final (PyInivationCameraModel._pause 5 (Fixtures.model None)) in
  let self' := final (PyInivationCameraModel._pause 9 self) in
  PyInivationCameraModel.t_pause self'
  > PyInivationCameraModel.t_last_iteration self'.
Proof.
  exact (proj2 (paused_stays_paused HistogramBinner.histo_quantized
                  (final (PyInivationCameraModel._pause 5
                            (Fixtures.model None)))
                  ltac:(simpl; lia))
           9 ltac:(simpl; lia)).
Defined.

(** Witness of X10: built at clock readings 5 and 6, ticked at 3. *)
Lemma clock_step_back_looks_like_pause_witness :
  let self := PyInivationCameraModel.set_t_last_iteration 6
                (PyInivationCameraModel.set_t_pause 5 (Fixtures.model None)) in
  let o := PyInivationCameraModel.run_spk HistogramBinner.histo_quantized 3
             None self in
  result o = inr tt /\
  PyInivationCameraModel.run_spk HistogramBinner.histo_quantized 7
    (Some Fixtures.three_events) (final o)
  = mkOutcome [] (final o) (inl (Raise NotImplementedError pausing_message)).
Proof.
  split; [reflexivity|].
  exact (clock_step_back_looks_like_pause HistogramBinner.histo_quantized
           (PyInivationCameraModel.set_t_last_iteration 6
              (PyInivationCameraModel.set_t_pause 5 (Fixtures.model None)))
           3 None 7 (Some Fixtures.three_events)
           ltac:(simpl; lia) eq_refl ltac:(simpl; lia)).
Defined.

(** Witness of X11: the 4 by 4 model ticked at clock reading 1. *)
Lemma unpaused_stays_unpaused_witness :
  let o := PyInivationCameraModel.run_spk HistogramBinner.histo_quantized 1
             (Some Fixtures.three_events) (Fixtures.model None) in
  PyInivationCameraModel.t_pause (final o)
  <= PyInivationCameraModel.t_last_iteration (final o).
Proof.
  exact (unpaused_stays_unpaused HistogramBinner.histo_quantized
           (Fixtures.model None) 1 (Some Fixtures.three_events)
           ltac:(simpl; lia) ltac:(simpl; lia)).
Defined.

(** Witness of X13: a tick whose pipeline raises. *)
Lemma failing_tick_sends_nothing_witness :
  let o := PyInivationCameraModel.run_spk HistogramBinner.histo_quantized 1
             (Some Fixtures.three_events)
             (Fixtures.model (Some [Fixtures.broken])) in
  result o = inl (Raise IndexError "broken") /\
  filter is_send (trace o) = [].
Proof.
  split; [reflexivity|].
  exact (failing_tick_sends_nothing HistogramBinner.histo_quantized
           (Fixtures.model (Some [Fixtures.broken])) 1
           (Some Fixtures.three_events) (Raise IndexError "broken") eq_refl).
Defined.


(** Witness of X16: the binner call of the three-event tick. *)
Lemma binner_call_arguments_witness :
  let events := PyInivationCameraModel.normalize Fixtures.three_events in
  In (Call_histo_quantized events
        (PyInivationCameraModel.volume (Fixtures.model None)) 10 (Some true))
     (trace (PyInivationCameraModel.run_spk HistogramBinner.histo_quantized 1
               (Some Fixtures.three_events) (Fixtures.model None))) /\
  10 = PyInivationCameraModel.time_span events.
Proof.
  assert (H : In (Call_histo_quantized
                    (PyInivationCameraModel.normalize Fixtures.three_events)
                    (PyInivationCameraModel.volume (Fixtures.model None)) 10
                    (Some true))
                (trace (PyInivationCameraModel.run_spk
                          HistogramBinner.histo_quantized 1
                          (Some Fixtures.three_events) (Fixtures.model None))))
    by (right; left; reflexivity).
  split; [exact H|].
  exact (proj1 (proj2 (proj2 (proj2
           (binner_call_arguments HistogramBinner.histo_quantized
              (Fixtures.model None) 1 (Some Fixtures.three_events)
              _ _ _ _ H))))).
Defined.

(** Witness of X17: the frame of the three-event tick is the buffer. *)
Lemma buffer_after_tick_witness :
  let o := PyInivationCameraModel.run_spk HistogramBinner.histo_quantized 1
             (Some Fixtures.three_events) (Fixtures.model None) in
  filter is_send (trace o)
  = [Call_send (PyInivationCameraModel.volume (final o))].
Proof.
  exact (buffer_after_tick HistogramBinner.histo_quantized
           (Fixtures.model None) 1 (Some Fixtures.three_events) eq_refl).
Defined.


(** Witness of X22: the halving pipeline with the shape (1, 2, -1, 4). *)
Lemma dry_run_rejects_negative_shape_witness :
  InivationCamera.init HistogramBinner.histo_quantized Fixtures.half (4, 4) ""
    None (Some [Fixtures.downsample]) 1 (Some [1; 2; -1; 4]) tt
  = mkOutcome [Call_transformations (InivationCamera.test_data Fixtures.half 4 4)]
      tt (inl (Raise Exception InivationCamera.dry_run_message)).
Proof.
  apply (dry_run_rejects_negative_shape HistogramBinner.histo_quantized
           Fixtures.half 4 4 "" None [Fixtures.downsample] 1 [1; 2; -1; 4]).
  - lia.
  - now left.
  - constructor; [|constructor]. intros b. eexists. reflexivity.
  - intros H. inversion_clear H as [|? ? _ H1].
    inversion_clear H1 as [|? ? _ H2]. inversion_clear H2 as [|? ? H3 _]. lia.
Defined.

(** ** Pauses and reachable models *)

Section PauseAndReach.

Variable histo_quantized : Binner.


Lemma model_init_no_biases proc_params clock self :
  result (PyInivationCameraModel.init proc_params clock tt) = inr self ->
  PyInivationCameraModel.biases self = None.
Proof.
  rewrite model_init_cases.
  destruct (ProcParams.shape proc_params) as [|n [|p [|h [|w [|x l]]]]];
    try discriminate.
  destruct (ProcParams.biases proc_params); [discriminate|].
  destruct (np_zeros [n; p; h; w] UInt8); [discriminate|].
  cbn [result]. intros H. now injection H as <-.
Qed.

(** X24: whatever ticks and pauses a model has gone through since it
    was built, it has no biases, its port shape is its shape, the shape
    is its four dimensions, none of them negative, and its buffer is an
    unsigned 8-bit array of that shape. *)
Theorem reachable_invariant self :
  Reachable histo_quantized self ->
  PyInivationCameraModel.biases self = None /\
  PyInivationCameraModel.s_out self = PyInivationCameraModel.shape self /\
  PyInivationCameraModel.shape self
  = [PyInivationCameraModel.num_output_time_bins self;
     PyInivationCameraModel.polarities self;
     PyInivationCameraModel.height self;
     PyInivationCameraModel.width self] /\
  0 <= PyInivationCameraModel.num_output_time_bins self /\
  0 <= PyInivationCameraModel.polarities self /\
  0 <= PyInivationCameraModel.height self /\
  0 <= PyInivationCameraModel.width self /\
  tshape (PyInivationCameraModel.volume self)
  = PyInivationCameraModel.shape self /\
  dtype (PyInivationCameraModel.volume self) = UInt8.
Proof.
  intros Hr.
  destruct (Reachable_ok _ _ Hr) as (Hs & Hsh & Hnn & Hv & Hd).
  rewrite Hsh in Hnn. apply nonneg4 in Hnn.
  split; [|repeat split; try assumption; apply Hnn].
  clear Hs Hsh Hnn Hv Hd.
  induction Hr as [pp clock self H | self t_now nb _ IH | self now _ IH].
  - eapply model_init_no_biases; eauto.
  - revert IH. tick_cases histo_quantized self; auto.
  - exact IH.
Qed.

End PauseAndReach.

(** Witness of X24: the 4 by 4 model after a tick, a pause and a second
    tick. *)
Lemma reachable_invariant_witness :
  let self1 := final (PyInivationCameraModel.run_spk
                        HistogramBinner.histo_quantized 1
                        (Some Fixtures.three_events) (Fixtures.model None)) in
  let self2 := final (PyInivationCameraModel._pause 2 self1) in
  let self3 := final (PyInivationCameraModel.run_spk
                        HistogramBinner.histo_quantized 3 None self2) in
  Reachable HistogramBinner.histo_quantized self3 /\
  dtype (PyInivationCameraModel.volume self3) = UInt8.
Proof.
  cbv zeta.
  assert (H : Reachable HistogramBinner.histo_quantized
                (final (PyInivationCameraModel.run_spk
                          HistogramBinner.histo_quantized 3 None
                          (final (PyInivationCameraModel._pause 2
                             (final (PyInivationCameraModel.run_spk
                                       HistogramBinner.histo_quantized 1
                                       (Some Fixtures.three_events)
                                       (Fixtures.model None)))))))).
  { apply Reachable_run_spk, Reachable_pause, Reachable_run_spk.
    apply (Reachable_init _ (Fixtures.params None) (0, 0)). reflexivity. }
  split; [exact H|].
  exact (proj2 (proj2 (proj2 (proj2 (proj2 (proj2 (proj2 (proj2
           (reachable_invariant HistogramBinner.histo_quantized _ H))))))))).
Defined.
